(** * airflow/models/variable.py: the encrypted variable store

    A shallow embedding of [airflow.models.variable]: the lazily resolved
    Fernet provider ([get_fernet], [NullFernet]), the [Variable] row with its
    [val] accessors, and the class methods [get], [set] and [setdefault].

    Python text ([str]) is represented by its UTF-8 encoding, so that
    [bytes(s, 'utf-8')] is the identity on the representation and
    [b.decode()] is the validity check of the decoder.  Module globals, the
    log, the allocator and the entropy consumed by the cipher are threaded
    through a state-and-exception monad in which a raised exception keeps the
    mutations made before it, as in Python. *)

From Stdlib Require Import String Ascii List Bool Arith NArith Lia.
Import ListNotations.
Local Open Scope list_scope.
Local Open Scope string_scope.

Set Implicit Arguments.

(** ** Exceptions *)

(** The exception classes that the module raises, catches or lets through. *)
Inductive exn_class : Type :=
  | Exception
  | ValueError
  | TypeError
  | KeyError
  | AttributeError
  | UnicodeDecodeError        (* subclass of ValueError *)
  | JSONDecodeError           (* subclass of ValueError *)
  | AirflowException
  | InvalidToken              (* cryptography.fernet.InvalidToken *)
  | InvalidFernetToken_local. (* the placeholder class of lines 35-38 *)

Definition exn_class_eqb (a b : exn_class) : bool :=
  match a, b with
  | Exception, Exception | ValueError, ValueError | TypeError, TypeError
  | KeyError, KeyError | AttributeError, AttributeError
  | UnicodeDecodeError, UnicodeDecodeError
  | JSONDecodeError, JSONDecodeError
  | AirflowException, AirflowException | InvalidToken, InvalidToken
  | InvalidFernetToken_local, InvalidFernetToken_local => true
  | _, _ => false
  end.

(** [issubclass c d]: every class derives from [Exception]; the two decoding
    errors derive from [ValueError]. *)
Definition issubclass (c d : exn_class) : bool :=
  exn_class_eqb c d
  || exn_class_eqb d Exception
  || match c, d with
     | UnicodeDecodeError, ValueError | JSONDecodeError, ValueError => true
     | _, _ => false
     end.

Record exn : Type := mkExn { exn_cls : exn_class; exn_msg : string }.

Definition isinstance (e : exn) (c : exn_class) : bool :=
  issubclass (exn_cls e) c.

(** [except (c1, c2, ...)]: does the clause catch [e]? *)
Definition catches (cs : list exn_class) (e : exn) : bool :=
  existsb (isinstance e) cs.

Inductive result (A : Type) : Type :=
  | Ok (a : A)
  | Raise (e : exn).
Arguments Ok {A} a.
Arguments Raise {A} e.

(** ** Text and bytes *)

Definition str := string.
Definition bytes := string.

(** Truthiness of a [str]: the empty string is falsy. *)
Definition nonempty (s : string) : bool :=
  match s with EmptyString => false | String _ _ => true end.

(** Truthiness of an attribute that holds [None] or a [str]. *)
Definition truthy (v : option str) : bool :=
  match v with None => false | Some s => nonempty s end.

Definition byte_in (lo hi : N) (c : ascii) : bool :=
  let n := N_of_ascii c in (N.leb lo n && N.leb n hi)%bool.

(** Well-formed UTF-8 (RFC 3629): no overlong forms, no surrogates, nothing
    above U+10FFFF. *)
Fixpoint is_utf8 (b : bytes) : bool :=
  match b with
  | EmptyString => true
  | String c0 r0 =>
    if byte_in 0 127 c0 then is_utf8 r0
    else match r0 with
    | EmptyString => false
    | String c1 r1 =>
      if byte_in 194 223 c0 then byte_in 128 191 c1 && is_utf8 r1
      else match r1 with
      | EmptyString => false
      | String c2 r2 =>
        if byte_in 224 239 c0 then
          (if byte_in 224 224 c0 then byte_in 160 191 c1
           else if byte_in 237 237 c0 then byte_in 128 159 c1
           else byte_in 128 191 c1)
          && byte_in 128 191 c2 && is_utf8 r2
        else match r2 with
        | EmptyString => false
        | String c3 r3 =>
          byte_in 240 244 c0
          && (if byte_in 240 240 c0 then byte_in 144 191 c1
              else if byte_in 244 244 c0 then byte_in 128 143 c1
              else byte_in 128 191 c1)
          && byte_in 128 191 c2 && byte_in 128 191 c3 && is_utf8 r3
        end
      end
    end
  end.

(** [bytes(s, 'utf-8')] *)
Definition encode_utf8 (s : str) : bytes := s.

(** [b.decode()] *)
Definition decode (b : bytes) : result str :=
  if is_utf8 b then Ok b
  else Raise (mkExn UnicodeDecodeError "'utf-8' codec can't decode bytes").

(** [s.split(sep)] for a one-character separator: never an empty list. *)
Fixpoint split (sep : ascii) (s : str) : list str :=
  match s with
  | EmptyString => [EmptyString]
  | String c rest =>
    if Ascii.eqb c sep then EmptyString :: split sep rest
    else match split sep rest with
         | hd :: tl => String c hd :: tl
         | [] => [String c EmptyString]
         end
  end.

(** ** The libraries the module calls *)

(** [cryptography.fernet]: the key constructor [Fernet(key)], and the three
    methods of [MultiFernet] that the module uses.  Encryption draws a
    timestamp and an IV; the draw is indexed by a counter kept in the process
    state. *)
Class Cryptography : Type := {
  FernetKey : Type;
  Fernet : bytes -> result FernetKey;
  MultiFernet_encrypt : list FernetKey -> nat -> bytes -> bytes;
  MultiFernet_decrypt : list FernetKey -> bytes -> result bytes;
  MultiFernet_rotate : list FernetKey -> nat -> bytes -> result bytes
}.

(** Values of the built-in types other than [None] and [str] (numbers,
    booleans, lists, dicts, ...), with their [str()]. *)
Class PyData : Type := {
  data : Type;
  str_data : data -> str
}.

Section Values.
Context {D : PyData}.

(** What [json.loads] can build, and what a column can hand back. *)
Inductive builtin : Type :=
  | BNone
  | BStr (s : str)
  | BData (d : data).

(** A Python value: a built-in value, or a bare [object()] instance, known
    only by its identity. *)
Inductive pyval : Type :=
  | Builtin (b : builtin)
  | PyObject (addr : nat).

Definition PyNone : pyval := Builtin BNone.
Definition PyStr (s : str) : pyval := Builtin (BStr s).

(** [v is not None] *)
Definition is_not_None (v : pyval) : bool :=
  match v with Builtin BNone => false | _ => true end.

(** [v is o] where [o] is the [object()] allocated at [addr]. *)
Definition is_object (v : pyval) (addr : nat) : bool :=
  match v with PyObject a => Nat.eqb a addr | Builtin _ => false end.

Definition of_val (v : option str) : pyval :=
  match v with None => PyNone | Some s => PyStr s end.
End Values.

(** [json]: the encoder, the decoder on text, and [object.__str__]. *)
Class Json {D : PyData} : Type := {
  json_dumps : pyval -> result str;
  json_decode : str -> result builtin;
  object_str : nat -> str
}.

Section Values2.
Context {D : PyData} {J : Json}.

(** [json.loads(s)]: the argument must be text. *)
Definition json_loads (s : option str) : result builtin :=
  match s with
  | None => Raise (mkExn TypeError
      "the JSON object must be str, bytes or bytearray, not NoneType")
  | Some t => json_decode t
  end.

(** [str(v)] *)
Definition py_str (v : pyval) : str :=
  match v with
  | Builtin BNone => "None"
  | Builtin (BStr s) => s
  | Builtin (BData d) => str_data d
  | PyObject a => object_str a
  end.
End Values2.

(** ** Process state *)

Section Model.
Context {C : Cryptography} {D : PyData} {J : Json}.

(** The object bound to the module global [_fernet]: an instance of
[NullFernet], or the [MultiFernet] built at lines 97-100, whose instance
attribute [is_encrypted] is set to [True] at line 101 before anything can
observe the object. *)
Inductive cipher : Type :=
  | NullFernet
  | MultiFernet (fernets : list FernetKey).

Inductive level : Type := WARNING | ERROR.

(** Modelled from the spec: [configuration.conf.get('core', 'FERNET_KEY')],
whose module is not part of this file, is a "single string-valued lookup for
the key-material setting (empty string/absent means not configured)"; [None]
stands for an absent setting.  With it, the other thing that the module
reads but never writes: whether [from cryptography.fernet import ...]
succeeds. *)
Record environ : Type := {
  cryptography_installed : bool;
  FERNET_KEY : option str
}.

(** The module globals [_fernet] and [InvalidFernetToken], the records handed
to the logger, the next free object identity, and the number of draws the
cipher has made from the clock and the random source. *)
Record process : Type := {
  _fernet : option cipher;
  InvalidFernetToken : exn_class;
  log : list (level * string);
  next_addr : nat;
  draws : nat
}.

(** The state at import time (lines 35-38 and 59). *)
Definition module_loaded : process :=
  {| _fernet := None; InvalidFernetToken := InvalidFernetToken_local;
     log := []; next_addr := 0; draws := 0 |}.

(** ** The monad of module code *)

Definition M (A : Type) : Type := environ -> process -> result A * process.

Definition ret {A} (a : A) : M A := fun _ st => (Ok a, st).

Definition bind {A B} (m : M A) (k : A -> M B) : M B :=
  fun env st =>
    match m env st with
    | (Ok a, st') => k a env st'
    | (Raise e, st') => (Raise e, st')
    end.

Definition raise {A} (c : exn_class) (msg : string) : M A :=
  fun _ st => (Raise (mkExn c msg), st).

Definition lift {A} (r : result A) : M A := fun _ st => (r, st).

Definition asks {A} (f : environ -> A) : M A := fun env st => (Ok (f env), st).

Definition gets {A} (f : process -> A) : M A := fun _ st => (Ok (f st), st).

Definition modify (f : process -> process) : M unit :=
  fun _ st => (Ok tt, f st).

(** [try: body / except ...: handler]; the handler decides by itself which
exceptions it lets through. *)
Definition try_except {A} (body : M A) (handler : exn -> M A) : M A :=
  fun env st =>
    match body env st with
    | (Ok a, st') => (Ok a, st')
    | (Raise e, st') => handler e env st'
    end.

Definition reraise {A} (e : exn) : M A := fun _ st => (Raise e, st).
End Model.

Declare Scope py_scope.
Delimit Scope py_scope with py.
Notation "x <- m ;; k" := (bind m (fun x => k))
  (at level 61, m at next level, right associativity) : py_scope.
Notation "m ;; k" := (bind m (fun _ => k))
  (at level 61, right associativity) : py_scope.
Local Open Scope py_scope.

(** ** The module *)

Section Module.
Context {C : Cryptography} {D : PyData} {J : Json}.

Definition warning (msg : string) : M unit :=
  modify (fun st =>
    {| _fernet := _fernet st; InvalidFernetToken := InvalidFernetToken st;
       log := (log st ++ [(WARNING, msg)])%list;
       next_addr := next_addr st; draws := draws st |}).

Definition error (msg : string) : M unit :=
  modify (fun st =>
    {| _fernet := _fernet st; InvalidFernetToken := InvalidFernetToken st;
       log := (log st ++ [(ERROR, msg)])%list;
       next_addr := next_addr st; draws := draws st |}).

(** [_fernet = f] *)
Definition assign_fernet (f : cipher) : M unit :=
  modify (fun st =>
    {| _fernet := Some f; InvalidFernetToken := InvalidFernetToken st;
       log := log st; next_addr := next_addr st; draws := draws st |}).

(** [InvalidFernetToken = c] *)
Definition assign_InvalidFernetToken (c : exn_class) : M unit :=
  modify (fun st =>
    {| _fernet := _fernet st; InvalidFernetToken := c;
       log := log st; next_addr := next_addr st; draws := draws st |}).

(** One draw from the clock and the random source. *)
Definition draw : M nat :=
  fun _ st =>
    (Ok (draws st),
     {| _fernet := _fernet st; InvalidFernetToken := InvalidFernetToken st;
        log := log st; next_addr := next_addr st; draws := S (draws st) |}).

(** [object()]: the identity of the new instance. *)
Definition new_object : M nat :=
  fun _ st =>
    (Ok (next_addr st),
     {| _fernet := _fernet st; InvalidFernetToken := InvalidFernetToken st;
        log := log st; next_addr := S (next_addr st); draws := draws st |}).

(** *** class NullFernet (lines 41-56) *)

(** The methods of the class, under the names the class body gives them. *)
Definition NullFernet_methods : list (string * (bytes -> bytes)) :=
  [ ("decrpyt", fun b => b);
    ("encrypt", fun b => b) ].

Definition NullFernet_is_encrypted : bool := false.

Fixpoint lookup {A} (name : string) (d : list (string * A)) : option A :=
  match d with
  | [] => None
  | (n, a) :: d' => if String.eqb n name then Some a else lookup name d'
  end.

(** [MultiFernet(fernets)] refuses an empty list. *)
Definition MultiFernet_new (fernets : list FernetKey) : result cipher :=
  match fernets with
  | [] => Raise (mkExn ValueError
                   "MultiFernet requires at least one Fernet instance")
  | _ :: _ => Ok (MultiFernet fernets)
  end.

(** [f.is_encrypted] *)
Definition cipher_is_encrypted (f : cipher) : bool :=
  match f with
  | NullFernet => NullFernet_is_encrypted
  | MultiFernet _ => true
  end.

(** [f.name(b)]: attribute lookup on the object, then the call. *)
Definition call_method (f : cipher) (name : string) (b : bytes) : M bytes :=
  match f with
  | NullFernet =>
    match lookup name NullFernet_methods with
    | Some m => ret (m b)
    | None => raise AttributeError
                ("'NullFernet' object has no attribute '" ++ name ++ "'")
    end
  | MultiFernet fernets =>
    if String.eqb name "encrypt" then
      n <- draw ;; ret (MultiFernet_encrypt fernets n b)
    else if String.eqb name "decrypt" then
      lift (MultiFernet_decrypt fernets b)
    else if String.eqb name "rotate" then
      n <- draw ;; lift (MultiFernet_rotate fernets n b)
    else raise AttributeError
           ("'MultiFernet' object has no attribute '" ++ name ++ "'")
  end.

(** *** get_fernet (lines 62-105) *)

(** [[f(x) for x in l]]: the first exception ends the comprehension. *)
Fixpoint comprehension {A B} (f : A -> result B) (l : list A)
  : result (list B) :=
  match l with
  | [] => Ok []
  | x :: l' =>
    match f x with
    | Raise e => Raise e
    | Ok y =>
      match comprehension f l' with
      | Raise e => Raise e
      | Ok ys => Ok (y :: ys)
      end
    end
  end.

(** The argument of [MultiFernet] at lines 97-100. *)
Definition fernet_parts (fernet_key : str) : result (list FernetKey) :=
  comprehension (fun fernet_part => Fernet (encode_utf8 fernet_part))
                (split "," fernet_key).

(** The body returns the object it has just bound to [_fernet], which is what
[return _fernet] at line 105 reads back. *)
Definition get_fernet : M cipher :=
  cached <- gets _fernet ;;
  match cached with
  | Some f => ret f
  | None =>
    installed <- asks cryptography_installed ;;
    if negb installed then
      warning "cryptography not found - values will not be stored encrypted." ;;
      assign_fernet NullFernet ;;
      ret NullFernet
    else
      assign_InvalidFernetToken InvalidToken ;;
      try_except
        (fernet_key <- asks FERNET_KEY ;;
         if negb (truthy fernet_key) then
           warning
             "empty cryptography key - values will not be stored encrypted." ;;
           assign_fernet NullFernet ;;
           ret NullFernet
         else
           fernets <- lift (fernet_parts
                              (match fernet_key with Some k => k | None => "" end)) ;;
           f <- lift (MultiFernet_new fernets) ;;
           assign_fernet f ;;
           ret f)
        (fun ve =>
           if catches [ValueError; TypeError] ve then
             raise AirflowException
               ("Could not create Fernet object: " ++ exn_msg ve)
           else reraise ve)
  end.
(** *** class Variable (lines 108-206) *)

(** A row of the table ["variable"].  The surrogate primary key [id] is
assigned by the database and read by no method of the class; the column
default [False] fills [is_encrypted] when the setter has not. *)
Record variable : Type := {
  key : str;
  _val : option str;
  is_encrypted : bool
}.

(** The text held by a truthy column. *)
Definition text (v : option str) : str :=
  match v with Some s => s | None => "" end.

(** [__repr__] *)
Definition repr (self : variable) : str :=
  key self ++ " : " ++ match _val self with Some s => s | None => "None" end.

(** The body of the [try] in [get_val] (lines 124-125). *)
Definition decrypt_val (self : variable) : M (option str) :=
  fernet <- get_fernet ;;
  plain <- call_method fernet "decrypt" (encode_utf8 (text (_val self))) ;;
  s <- lift (decode plain) ;;
  ret (Some s).

Definition get_val (self : variable) : M (option str) :=
  if truthy (_val self) && is_encrypted self then
    try_except
      (decrypt_val self)
      (fun e =>
         cls <- gets InvalidFernetToken ;;
         if isinstance e cls then
           error ("Can't decrypt _val for key=" ++ key self
                  ++ ", invalid token or value") ;;
           ret None
         else if isinstance e Exception then
           error ("Can't decrypt _val for key=" ++ key self
                  ++ ", FERNET_KEY configuration missing") ;;
           ret None
         else reraise e)
  else ret (_val self).

Definition set_val (self : variable) (value : str) : M variable :=
  if nonempty value then
    fernet <- get_fernet ;;
    token <- call_method fernet "encrypt" (encode_utf8 value) ;;
    v <- lift (decode token) ;;
    ret {| key := key self; _val := Some v;
           is_encrypted := cipher_is_encrypted fernet |}
  else ret self.

Definition rotate_fernet_key (self : variable) : M variable :=
  fernet <- get_fernet ;;
  if truthy (_val self) && is_encrypted self then
    token <- call_method fernet "rotate" (encode_utf8 (text (_val self))) ;;
    v <- lift (decode token) ;;
    ret {| key := key self; _val := Some v;
           is_encrypted := is_encrypted self |}
  else ret self.

(** [Variable(key=k, val=value)]: the declarative constructor sets the
attributes one by one, [val] through its synonym, that is, [set_val]. *)
Definition Variable_new (k : str) (value : str) : M variable :=
  set_val {| key := k; _val := None; is_encrypted := false |} value.

(** The rows that a session sees, oldest first. *)
Definition session : Type := list variable.

(** [session.query(cls).filter(cls.key == k)] *)
Definition query_filter (s : session) (k : str) : list variable :=
  filter (fun r => String.eqb (key r) k) s.

(** [.first()] *)
Definition first (q : list variable) : option variable :=
  match q with [] => None | r :: _ => Some r end.

(** [.delete()] on the same query. *)
Definition delete (s : session) (k : str) : session :=
  filter (fun r => negb (String.eqb (key r) k)) s.

(** [session.add(r)] followed by [session.flush()]. *)
Definition add (s : session) (r : variable) : session := (s ++ [r])%list.

Definition get (s : session) (k : str) (default_var : pyval)
  (deserialize_json : bool) : M pyval :=
  match first (query_filter s k) with
  | None =>
    if is_not_None default_var then ret default_var
    else raise KeyError ("Variable " ++ k ++ " does not exist")
  | Some obj =>
    if deserialize_json then
      v <- get_val obj ;;
      j <- lift (json_loads v) ;;
      ret (Builtin j)
    else
      v <- get_val obj ;;
      ret (of_val v)
  end.

(** The rows of the key are deleted before the new row is constructed; when
the constructor raises, what becomes of the pending delete is up to the
session ([provide_session] rolls back), so a raising [set] returns no
session. *)
Definition set (s : session) (k : str) (value : pyval)
  (serialize_json : bool) : M session :=
  stored_value <- (if serialize_json then lift (json_dumps value)
                   else ret (py_str value)) ;;
  let s' := delete s k in
  obj <- Variable_new k stored_value ;;
  ret (add s' obj).

Definition setdefault (s : session) (k : str) (default : pyval)
  (deserialize_json : bool) : M (pyval * session) :=
  default_sentinel <- new_object ;;
  obj <- get s k (PyObject default_sentinel) deserialize_json ;;
  if is_object obj default_sentinel then
    if is_not_None default then
      s' <- set s k default deserialize_json ;;
      ret (default, s')
    else raise ValueError "Default Value must be set"
  else ret (obj, s).
End Module.

(** ** A small instance of the libraries

Enough of [cryptography] and [json] to run the module: keys are 44 bytes of
text, a token is a fixed header followed by the payload in hexadecimal, and
the JSON codec knows [None] and the booleans. *)

Definition hex_digit (n : N) : ascii :=
  ascii_of_N (if N.ltb n 10 then 48 + n else 87 + n).

Definition hex_value (c : ascii) : option N :=
  let n := N_of_ascii c in
  if (N.leb 48 n && N.leb n 57)%bool then Some (n - 48)%N
  else if (N.leb 97 n && N.leb n 102)%bool then Some (n - 87)%N
  else None.

Fixpoint hexlify (b : bytes) : str :=
  match b with
  | EmptyString => EmptyString
  | String c r =>
    String (hex_digit (N_of_ascii c / 16))
      (String (hex_digit (N_of_ascii c mod 16)) (hexlify r))
  end.

Fixpoint unhexlify (s : str) : option bytes :=
  match s with
  | EmptyString => Some EmptyString
  | String a (String b r) =>
    match hex_value a, hex_value b, unhexlify r with
    | Some x, Some y, Some t => Some (String (ascii_of_N (16 * x + y)) t)
    | _, _, _ => None
    end
  | String _ EmptyString => None
  end.

Definition demo_header : str := "gAAAAAB".

Definition demo_token (payload : bytes) : bytes :=
  demo_header ++ hexlify payload.

Fixpoint strip_prefix (p s : string) : option string :=
  match p, s with
  | EmptyString, _ => Some s
  | String a p', String b s' =>
    if Ascii.eqb a b then strip_prefix p' s' else None
  | String _ _, EmptyString => None
  end.

Definition demo_open (token : bytes) : result bytes :=
  match strip_prefix demo_header token with
  | None => Raise (mkExn InvalidToken "")
  | Some body =>
    match unhexlify body with
    | None => Raise (mkExn InvalidToken "")
    | Some b => Ok b
    end
  end.

Definition demo_cryptography : Cryptography := {|
  FernetKey := bytes;
  Fernet := fun k =>
    if Nat.eqb (String.length k) 44 then Ok k
    else Raise (mkExn ValueError
                  "Fernet key must be 32 url-safe base64-encoded bytes.");
  MultiFernet_encrypt := fun _ _ b => demo_token b;
  MultiFernet_decrypt := fun _ t => demo_open t;
  MultiFernet_rotate := fun _ _ t =>
    match demo_open t with
    | Ok b => Ok (demo_token b)
    | Raise e => Raise e
    end
|}.

Definition demo_data : PyData := {|
  data := bool;
  str_data := fun b => if b then "True" else "False"
|}.

Definition demo_json : @Json demo_data :=
  @Build_Json demo_data
    (fun v : pyval (D:=demo_data) =>
       match v with
       | Builtin BNone => Ok "null"
       | Builtin (BData true) => Ok "true"
       | Builtin (BData false) => Ok "false"
       | _ => Raise (mkExn TypeError "Object is not JSON serializable")
       end)
    (fun s =>
       if String.eqb s "null" then Ok (BNone (D:=demo_data))
       else if String.eqb s "true" then Ok (BData (D:=demo_data) true)
       else if String.eqb s "false" then Ok (BData (D:=demo_data) false)
       else Raise (mkExn JSONDecodeError "Expecting value"))
    (fun _ => "<object object>").

Definition demo_key : str := "AAAAAAAAAAAAAAAAAAAAAAAAAAAAAAAAAAAAAAAAAAA=".

Definition demo_env (installed : bool) (fernet_key : option str) : environ :=
  {| cryptography_installed := installed; FERNET_KEY := fernet_key |}.

(** Python's [True]. *)
Definition demo_True : @pyval demo_data :=
  @Builtin demo_data (@BData demo_data true).

(** What [Fernet] raises on a key of the wrong length. *)
Definition demo_bad_key : exn :=
  mkExn ValueError "Fernet key must be 32 url-safe base64-encoded bytes.".

(** A row tagged as encrypted that holds no token. *)
Definition demo_garbage_row : variable :=
  {| key := "k"; _val := Some "garbage"; is_encrypted := true |}.

(** A row written in clear. *)
Definition demo_plain_row : variable :=
  {| key := "k"; _val := Some "old"; is_encrypted := false |}.

(** The process once [get_fernet] has found the key setting empty. *)
Definition demo_warned : @process demo_cryptography :=
  {| _fernet := Some (@NullFernet demo_cryptography);
     InvalidFernetToken := InvalidToken;
     log := [(WARNING,
       "empty cryptography key - values will not be stored encrypted.")];
     next_addr := 0; draws := 0 |}.

(** The process once [get_fernet] has built a cipher from [demo_key]. *)
Definition demo_resolved : @process demo_cryptography :=
  {| _fernet := Some (@MultiFernet demo_cryptography [demo_key]);
     InvalidFernetToken := InvalidToken;
     log := []; next_addr := 0; draws := 0 |}.

(** ** Assumptions on the libraries and on the configuration *)

Section Assumptions.
Context {C : Cryptography} {D : PyData} {J : Json}.

(** A [str] of the model is the UTF-8 encoding of some text. *)
Definition is_text (s : str) : Prop := is_utf8 s = true.

(** A Fernet token is URL-safe base64, hence text. *)
Definition tokens_are_text : Prop :=
  forall fernets n b, is_utf8 (MultiFernet_encrypt fernets n b) = true.

(** A Fernet token (version, timestamp, IV, padded ciphertext and HMAC, in
base64) is longer than its payload. *)
Definition tokens_expand : Prop :=
  forall fernets n b,
    String.length b < String.length (MultiFernet_encrypt fernets n b).

(** A [MultiFernet] decrypts what it has encrypted. *)
Definition decrypt_inverts_encrypt : Prop :=
  forall k ks n b,
    MultiFernet_decrypt (k :: ks) (MultiFernet_encrypt (k :: ks) n b) = Ok b.

(** [json.dumps] returns text, *)
Definition dumps_is_text : Prop :=
  forall x s, json_dumps x = Ok s -> is_utf8 s = true.

(** never the empty string, *)
Definition dumps_is_nonempty : Prop :=
  forall x s, json_dumps x = Ok s -> nonempty s = true.

(** and [json.loads] reads it back to an equivalent value. *)
Definition loads_inverts_dumps (equiv : pyval -> pyval -> Prop) : Prop :=
  forall x s, json_dumps x = Ok s ->
    exists y, json_decode s = Ok y /\ equiv x (Builtin y).

(** No real cipher: a cached [NullFernet], or nothing cached and either no
[cryptography] or an empty or absent key. *)
Definition null_active (env : environ) (st : process) : Prop :=
  _fernet st = Some NullFernet
  \/ (_fernet st = None
      /\ (cryptography_installed env = false
          \/ truthy (FERNET_KEY env) = false)).

(** A real cipher over the keys [k :: ks]: cached, or nothing cached and a
key setting every part of which [Fernet] accepts. *)
Definition real_active (env : environ) (st : process)
  (k : FernetKey) (ks : list FernetKey) : Prop :=
  _fernet st = Some (MultiFernet (k :: ks))
  \/ (_fernet st = None
      /\ cryptography_installed env = true
      /\ truthy (FERNET_KEY env) = true
      /\ fernet_parts (text (FERNET_KEY env)) = Ok (k :: ks)).

(** The key setting is present and [Fernet] rejects one of its parts with
the exception [e], a [ValueError] or a [TypeError]. *)
Definition structurally_invalid (env : environ) (e : exn) : Prop :=
  truthy (FERNET_KEY env) = true
  /\ fernet_parts (text (FERNET_KEY env)) = Raise e
  /\ catches [ValueError; TypeError] e = true.

(** No row of the session has the key [k]. *)
Definition absent (s : session) (k : str) : Prop :=
  forall r, In r s -> key r <> k.

(** The state after one [object()]. *)
Definition allocated (st : process) : process :=
  {| _fernet := _fernet st; InvalidFernetToken := InvalidFernetToken st;
     log := log st; next_addr := S (next_addr st); draws := draws st |}.

(** The provider resolves, one way or the other. *)
Definition provider_resolves (env : environ) (st : process) : Prop :=
  null_active env st \/ exists k ks, real_active env st k ks.

(** [log.warning] / [log.error] as a state change. *)
Definition logged (lv : level) (msg : string) (st : process) : process :=
  {| _fernet := _fernet st; InvalidFernetToken := InvalidFernetToken st;
     log := (log st ++ [(lv, msg)])%list;
     next_addr := next_addr st; draws := draws st |}.
End Assumptions.

(** ** Invariants of the process and of the session *)

Section Invariants.
Context {C : Cryptography}.

(** What every state reached from [module_loaded] satisfies:
[InvalidFernetToken] is bound to the placeholder class or to the class of
the library, and a cached [MultiFernet] has at least one key and was cached
after [InvalidFernetToken] had been rebound. *)
Definition coherent (st : process) : Prop :=
  (InvalidFernetToken st = InvalidFernetToken_local
   \/ InvalidFernetToken st = InvalidToken)
  /\ forall fernets,
       _fernet st = Some (MultiFernet fernets) ->
       InvalidFernetToken st = InvalidToken /\ fernets <> [].

(** [st'] comes after [st]: a cached provider is still cached, the log has
only been appended to, and the two counters have not gone back. *)
Definition advances (st st' : process) : Prop :=
  (forall f, _fernet st = Some f -> _fernet st' = Some f)
  /\ (exists l, log st' = (log st ++ l)%list)
  /\ next_addr st <= next_addr st'
  /\ draws st <= draws st'.

(** A computation that only advances the state and keeps it coherent,
whether it returns or raises. *)
Definition sound {A} (m : M A) : Prop :=
  forall env st,
    advances st (snd (m env st))
    /\ (coherent st -> coherent (snd (m env st))).

(** [MultiFernet.rotate] returns a token, which decrypts to what the token
it was given decrypts to. *)
Definition rotation_keeps_plaintext : Prop :=
  forall fernets n token token',
    MultiFernet_rotate fernets n token = Ok token' ->
    is_utf8 token' = true /\ nonempty token' = true
    /\ MultiFernet_decrypt fernets token' = MultiFernet_decrypt fernets token.

(** [MultiFernet.decrypt] raises nothing but [InvalidToken]. *)
Definition decrypt_raises_InvalidToken : Prop :=
  forall fernets token e,
    MultiFernet_decrypt fernets token = Raise e -> exn_cls e = InvalidToken.

(** The column [key] is unique. *)
Definition unique_keys (s : session) : Prop := NoDup (map key s).

(** The key [k] has a row. *)
Definition present (s : session) (k : str) : Prop :=
  exists r, first (query_filter s k) = Some r.
End Invariants.

(** * Properties *)

Unset Implicit Arguments.

Ltac unfold_monad :=
  unfold bind, ret, raise, reraise, lift, asks, gets, modify, try_except,
    warning, error, assign_fernet, assign_InvalidFernetToken, draw,
    new_object in *.

#[local] Arguments catches : simpl never.
#[local] Arguments String.append : simpl never.

(** ** Strings and lists *)

Lemma split_nonempty (sep : ascii) (s : str) : split sep s <> [].
Proof.
  destruct s as [|c rest]; simpl; [discriminate|].
  destruct (Ascii.eqb c sep); [discriminate|].
  destruct (split sep rest); discriminate.
Qed.

Lemma comprehension_length {A B} (f : A -> result B) (l : list A) (ys : list B) :
  comprehension f l = Ok ys -> List.length ys = List.length l.
Proof.
  revert ys; induction l as [|x l IH]; simpl; intros ys H.
  - inversion H; reflexivity.
  - destruct (f x); [|discriminate].
    destruct (comprehension f l); [|discriminate].
    inversion H; subst; simpl; f_equal; apply IH; reflexivity.
Qed.

Lemma nonempty_length (s : string) : nonempty s = true <-> 0 < String.length s.
Proof. destruct s; simpl; split; intros; try lia; try discriminate; reflexivity. Qed.

Lemma query_filter_absent (s : session) (k : str) :
  absent s k <-> query_filter s k = [].
Proof.
  unfold absent, query_filter; induction s as [|r s IH]; simpl.
  - split; [reflexivity | intros _ r []].
  - destruct (String.eqb_spec (key r) k) as [E|E]; split; intro H.
    + exfalso; apply (H r); [left; reflexivity | exact E].
    + discriminate.
    + apply IH; intros r' Hr'; apply H; right; exact Hr'.
    + intros r' [<-|Hr']; [exact E | apply IH; assumption].
Qed.

Lemma query_filter_delete_same (s : session) (k : str) :
  query_filter (delete s k) k = [].
Proof.
  unfold query_filter, delete; induction s as [|r s IH]; simpl; [reflexivity|].
  destruct (String.eqb (key r) k) eqn:E; simpl; [exact IH|].
  rewrite E; exact IH.
Qed.

Lemma query_filter_delete_other (s : session) (k k' : str) :
  k' <> k -> query_filter (delete s k) k' = query_filter s k'.
Proof.
  intro Hne; unfold query_filter, delete; induction s as [|r s IH]; simpl;
    [reflexivity|].
  destruct (String.eqb_spec (key r) k) as [E|E]; simpl.
  - destruct (String.eqb_spec (key r) k') as [E'|E']; [congruence | exact IH].
  - destruct (String.eqb (key r) k'); [f_equal|]; exact IH.
Qed.

Lemma query_filter_add (s : session) (r : variable) (k : str) :
  query_filter (add s r) k
  = (query_filter s k ++ (if String.eqb (key r) k then [r] else []))%list.
Proof.
  unfold query_filter, add; rewrite filter_app; simpl.
  destruct (String.eqb (key r) k); reflexivity.
Qed.

(** ** Provider resolution *)

Section Provider.
Context {C : Cryptography}.

Lemma fernet_parts_nonempty (fernet_key : str) (fernets : list FernetKey) :
  fernet_parts fernet_key = Ok fernets -> fernets <> [].
Proof.
  unfold fernet_parts; intros H Hnil.
  apply comprehension_length in H; subst fernets; simpl in H.
  destruct (split "," fernet_key) eqn:E; [|discriminate].
  exact (split_nonempty _ _ E).
Qed.

Lemma get_fernet_cached (env : environ) (st : process) (f : cipher) :
  _fernet st = Some f -> get_fernet env st = (Ok f, st).
Proof. intro H; unfold get_fernet; unfold_monad; rewrite H; reflexivity. Qed.

Lemma get_fernet_not_installed (env : environ) (st : process) :
  _fernet st = None -> cryptography_installed env = false ->
  get_fernet env st
  = (Ok NullFernet,
     {| _fernet := Some NullFernet;
        InvalidFernetToken := InvalidFernetToken st;
        log := (log st ++ [(WARNING,
          "cryptography not found - values will not be stored encrypted.")])%list;
        next_addr := next_addr st; draws := draws st |}).
Proof.
  intros H1 H2; unfold get_fernet; unfold_monad; rewrite H1, H2; reflexivity.
Qed.

Lemma get_fernet_empty_key (env : environ) (st : process) :
  _fernet st = None -> cryptography_installed env = true ->
  truthy (FERNET_KEY env) = false ->
  get_fernet env st
  = (Ok NullFernet,
     {| _fernet := Some NullFernet;
        InvalidFernetToken := InvalidToken;
        log := (log st ++ [(WARNING,
          "empty cryptography key - values will not be stored encrypted.")])%list;
        next_addr := next_addr st; draws := draws st |}).
Proof.
  intros H1 H2 H3; unfold get_fernet; unfold_monad; rewrite H1, H2; simpl.
  rewrite H3; reflexivity.
Qed.

Lemma get_fernet_valid_key (env : environ) (st : process)
  (fernets : list FernetKey) :
  _fernet st = None -> cryptography_installed env = true ->
  truthy (FERNET_KEY env) = true ->
  fernet_parts (text (FERNET_KEY env)) = Ok fernets ->
  get_fernet env st
  = (Ok (MultiFernet fernets),
     {| _fernet := Some (MultiFernet fernets);
        InvalidFernetToken := InvalidToken;
        log := log st; next_addr := next_addr st; draws := draws st |}).
Proof.
  intros H1 H2 H3 H4; unfold get_fernet; unfold_monad; rewrite H1, H2; simpl.
  rewrite H3; simpl. unfold text in H4. rewrite H4.
  pose proof (fernet_parts_nonempty _ _ H4) as Hne.
  destruct fernets; [congruence | reflexivity].
Qed.

Lemma get_fernet_invalid_key (env : environ) (st : process) (e : exn) :
  _fernet st = None -> cryptography_installed env = true ->
  structurally_invalid env e ->
  get_fernet env st
  = (Raise (mkExn AirflowException
              ("Could not create Fernet object: " ++ exn_msg e)),
     {| _fernet := None;
        InvalidFernetToken := InvalidToken;
        log := log st; next_addr := next_addr st; draws := draws st |}).
Proof.
  intros H1 H2 (H3 & H4 & H5); unfold get_fernet; unfold_monad.
  rewrite H1, H2; simpl. rewrite H3; simpl. unfold text in H4. rewrite H4.
  rewrite H5, H1. reflexivity.
Qed.

Lemma get_fernet_null_active (env : environ) (st : process) :
  null_active env st ->
  exists st', get_fernet env st = (Ok NullFernet, st')
    /\ _fernet st' = Some NullFernet
    /\ draws st' = draws st /\ next_addr st' = next_addr st.
Proof.
  intros [H | (H & Hcfg)].
  - exists st; rewrite (get_fernet_cached env st _ H); auto.
  - destruct (cryptography_installed env) eqn:Hi.
    + destruct Hcfg as [Hcfg | Hcfg]; [discriminate|].
      rewrite (get_fernet_empty_key env st H Hi Hcfg); eexists; split;
        [reflexivity | simpl; auto].
    + rewrite (get_fernet_not_installed env st H Hi); eexists; split;
        [reflexivity | simpl; auto].
Qed.

Lemma get_fernet_real_active (env : environ) (st : process)
  (k : FernetKey) (ks : list FernetKey) :
  real_active env st k ks ->
  exists st', get_fernet env st = (Ok (MultiFernet (k :: ks)), st')
    /\ _fernet st' = Some (MultiFernet (k :: ks))
    /\ draws st' = draws st /\ next_addr st' = next_addr st.
Proof.
  intros [H | (H & Hi & Hk & Hp)].
  - exists st; rewrite (get_fernet_cached env st _ H); auto.
  - rewrite (get_fernet_valid_key env st _ H Hi Hk Hp); eexists; split;
      [reflexivity | simpl; auto].
Qed.

(** A successful resolution leaves its result in [_fernet]. *)
Lemma get_fernet_caches (env : environ) (st st' : process) (f : cipher) :
  get_fernet env st = (Ok f, st') -> _fernet st' = Some f.
Proof.
  unfold get_fernet; unfold_monad.
  destruct (_fernet st) eqn:H1.
  - intro H; inversion H; subst; exact H1.
  - destruct (cryptography_installed env); simpl.
    + destruct (truthy (FERNET_KEY env)); simpl.
      * destruct (fernet_parts _) as [fs|e]; simpl.
        -- destruct fs; simpl; intro H.
           ++ discriminate.
           ++ inversion H; subst; reflexivity.
        -- destruct (catches _ _); discriminate.
      * intro H; inversion H; subst; reflexivity.
    + intro H; inversion H; subst; reflexivity.
Qed.
End Provider.

(** ** The accessors of a row *)

Section Accessors.
Context {C : Cryptography}.

Lemma isinstance_Exception (e : exn) : isinstance e Exception = true.
Proof. destruct e as [[] msg]; reflexivity. Qed.

Lemma decode_text (s : str) : is_text s -> decode s = Ok s.
Proof. unfold is_text, decode; intros ->; reflexivity. Qed.

Lemma set_val_empty (self : variable) (env : environ) (st : process) :
  set_val self "" env st = (Ok self, st).
Proof. reflexivity. Qed.

Lemma set_val_null_active (self : variable) (v : str) (env : environ)
  (st : process) :
  null_active env st -> nonempty v = true -> is_text v ->
  exists st',
    set_val self v env st
    = (Ok {| key := key self; _val := Some v; is_encrypted := false |}, st')
    /\ _fernet st' = Some NullFernet.
Proof.
  intros Hn Hv Ht.
  destruct (get_fernet_null_active _ _ Hn) as (st' & Hg & Hf & _).
  exists st'; split; [|exact Hf].
  unfold set_val; rewrite Hv; unfold bind at 1; rewrite Hg.
  unfold_monad; simpl. unfold encode_utf8; rewrite (decode_text _ Ht).
  reflexivity.
Qed.

Lemma set_val_real_active (self : variable) (v : str) (env : environ)
  (st : process) (k : FernetKey) (ks : list FernetKey) :
  tokens_are_text ->
  real_active env st k ks -> nonempty v = true ->
  exists st',
    set_val self v env st
    = (Ok {| key := key self;
             _val := Some (MultiFernet_encrypt (k :: ks) (draws st) v);
             is_encrypted := true |}, st')
    /\ _fernet st' = Some (MultiFernet (k :: ks))
    /\ draws st' = S (draws st).
Proof.
  intros Htok Hr Hv.
  destruct (get_fernet_real_active _ _ _ _ Hr) as (st' & Hg & Hf & Hd & Ha).
  unfold set_val; rewrite Hv; unfold bind at 1; rewrite Hg.
  unfold_monad; simpl. unfold encode_utf8.
  rewrite Hd, (decode_text _ (Htok _ _ _)).
  eexists; split; [reflexivity | simpl; auto].
Qed.

Lemma get_val_plain (r : variable) (env : environ) (st : process) :
  truthy (_val r) && is_encrypted r = false ->
  get_val r env st = (Ok (_val r), st).
Proof. intro H; unfold get_val; rewrite H; reflexivity. Qed.

Lemma get_val_real (r : variable) (env : environ) (st : process)
  (fernets : list FernetKey) (token plain : str) :
  _fernet st = Some (MultiFernet fernets) ->
  is_encrypted r = true -> _val r = Some token -> nonempty token = true ->
  MultiFernet_decrypt fernets token = Ok plain -> is_text plain ->
  get_val r env st = (Ok (Some plain), st).
Proof.
  intros Hf He Hv Hn Hd Ht.
  unfold get_val, decrypt_val; rewrite Hv, He; simpl; rewrite Hn; simpl.
  unfold try_except, bind at 1; rewrite (get_fernet_cached env st _ Hf).
  unfold_monad; simpl. unfold encode_utf8; rewrite Hd, (decode_text _ Ht).
  reflexivity.
Qed.

(** What the handlers of [get_val] do with a failed attempt. *)
Lemma get_val_failed (r : variable) (env : environ) (st st1 : process)
  (e : exn) :
  is_encrypted r = true -> truthy (_val r) = true ->
  decrypt_val r env st = (Raise e, st1) ->
  get_val r env st
  = (Ok None,
     logged ERROR
       ("Can't decrypt _val for key=" ++ key r ++
        (if isinstance e (InvalidFernetToken st1)
         then ", invalid token or value"
         else ", FERNET_KEY configuration missing")) st1).
Proof.
  intros He Hv Hd; unfold get_val; rewrite He, Hv; simpl.
  unfold try_except; rewrite Hd. unfold_monad.
  destruct (isinstance e (InvalidFernetToken st1)); [reflexivity|].
  rewrite isinstance_Exception; reflexivity.
Qed.

Lemma get_val_total (r : variable) (env : environ) (st : process) :
  exists v st', get_val r env st = (Ok v, st').
Proof.
  destruct (truthy (_val r) && is_encrypted r) eqn:H.
  - apply andb_prop in H as [Hv He].
    destruct (decrypt_val r env st) as [[p|e] st1] eqn:Hd.
    + exists p, st1; unfold get_val; rewrite Hv, He; simpl.
      unfold try_except; rewrite Hd; reflexivity.
    + rewrite (get_val_failed r env st _ _ He Hv Hd); eauto.
  - rewrite (get_val_plain r env st H); eauto.
Qed.
End Accessors.

(** ** The claims on the provider and on the accessors *)

Section ProviderClaims.
Context {C : Cryptography}.

(** C1. The null cipher is meant to be the identity in both directions.  The
class body defines [encrypt] and, under the misspelt name [decrpyt], the
identity that was meant to be [decrypt]: on an instance of [NullFernet],
[encrypt(b)] returns [b], [decrpyt(b)] returns [b], and [decrypt(b)] raises
[AttributeError].  Hence a row tagged as encrypted is read as [None] (with an
error logged) while the null cipher is cached, where the identity would have
returned the stored text. *)
Theorem NullFernet_decrypt_is_missing (b : bytes) (env : environ)
  (st : process) :
  call_method NullFernet "encrypt" b env st = (Ok b, st)
  /\ call_method NullFernet "decrpyt" b env st = (Ok b, st)
  /\ call_method NullFernet "decrypt" b env st
     = (Raise (mkExn AttributeError
                 "'NullFernet' object has no attribute 'decrypt'"), st)
  /\ (_fernet st = Some NullFernet ->
      forall k, exists reason,
        get_val {| key := k; _val := Some "abc"; is_encrypted := true |} env st
        = (Ok None,
           logged ERROR ("Can't decrypt _val for key=" ++ k ++ reason) st)).
Proof.
  repeat split; try reflexivity.
  intros Hf k.
  set (r := {| key := k; _val := Some "abc"; is_encrypted := true |}).
  assert (Hd : decrypt_val r env st
               = (Raise (mkExn AttributeError
                    "'NullFernet' object has no attribute 'decrypt'"), st)).
  { unfold decrypt_val, bind at 1; rewrite (get_fernet_cached env st _ Hf).
    reflexivity. }
  rewrite (get_val_failed r env st _ _ eq_refl eq_refl Hd); eauto.
Qed.

(** C2. Reading a row whose [is_encrypted] is set and whose stored value is
non-empty never raises.  When the attempt to decrypt fails, with whatever
exception and at whatever step (resolving the provider, the [decrypt] call,
decoding the plaintext), [get_val] returns [None] and logs one error that
names the key; in particular so for a token that the cached [MultiFernet]
rejects, and when no key material is configured at read time. *)
Theorem get_val_swallows_decryption_failure (r : variable) (env : environ)
  (st : process) :
  is_encrypted r = true -> truthy (_val r) = true ->
  (exists v st', get_val r env st = (Ok v, st'))
  /\ (forall e st1, decrypt_val r env st = (Raise e, st1) ->
      exists reason,
        get_val r env st
        = (Ok None,
           logged ERROR ("Can't decrypt _val for key=" ++ key r ++ reason) st1))
  /\ (forall fernets e,
        _fernet st = Some (MultiFernet fernets) ->
        MultiFernet_decrypt fernets (text (_val r)) = Raise e ->
        exists reason,
          get_val r env st
          = (Ok None,
             logged ERROR ("Can't decrypt _val for key=" ++ key r ++ reason) st))
  /\ (null_active env st ->
      exists reason st1,
        get_val r env st
        = (Ok None,
           logged ERROR ("Can't decrypt _val for key=" ++ key r ++ reason) st1)).
Proof.
  intros He Hv; split; [apply get_val_total|].
  assert (Hfail : forall e st1, decrypt_val r env st = (Raise e, st1) ->
    exists reason,
      get_val r env st
      = (Ok None,
         logged ERROR ("Can't decrypt _val for key=" ++ key r ++ reason) st1)).
  { intros e st1 Hd; rewrite (get_val_failed r env st _ _ He Hv Hd); eauto. }
  split; [exact Hfail|split].
  - intros fernets e Hf Hd; apply (Hfail e).
    unfold decrypt_val, bind at 1; rewrite (get_fernet_cached env st _ Hf).
    unfold_monad; simpl. unfold encode_utf8; rewrite Hd; reflexivity.
  - intro Hn; destruct (get_fernet_null_active _ _ Hn) as (st1 & Hg & _).
    destruct (Hfail (mkExn AttributeError
                       "'NullFernet' object has no attribute 'decrypt'") st1)
      as (reason & Hr); [|eauto].
    unfold decrypt_val, bind at 1; rewrite Hg; reflexivity.
Qed.

(** C3. With [cryptography] importable and nothing cached: a key setting
that is present but that [Fernet] rejects makes [get_fernet] raise
[AirflowException]; nothing is bound to [_fernet] (in particular not a
[NullFernet]) and nothing is logged.  An empty or absent key setting makes
it return a [NullFernet], bound to [_fernet], after one warning. *)
Theorem get_fernet_invalid_or_empty_key (env : environ) (st : process) :
  _fernet st = None -> cryptography_installed env = true ->
  (forall e, structurally_invalid env e ->
     exists st',
       get_fernet env st
       = (Raise (mkExn AirflowException
                   ("Could not create Fernet object: " ++ exn_msg e)), st')
       /\ _fernet st' = None /\ log st' = log st)
  /\ (truthy (FERNET_KEY env) = false ->
     exists st',
       get_fernet env st = (Ok NullFernet, st')
       /\ _fernet st' = Some NullFernet
       /\ log st' = (log st ++ [(WARNING,
            "empty cryptography key - values will not be stored encrypted.")])%list).
Proof.
  intros Hf Hi; split.
  - intros e He; rewrite (get_fernet_invalid_key env st e Hf Hi He).
    eexists; split; [reflexivity | simpl; auto].
  - intro Hk; rewrite (get_fernet_empty_key env st Hf Hi Hk).
    eexists; split; [reflexivity | simpl; auto].
Qed.

Lemma get_fernet_raise_keeps (env : environ) (st st' : process) (e : exn) :
  get_fernet env st = (Raise e, st') -> _fernet st' = None.
Proof.
  unfold get_fernet; unfold_monad.
  destruct (_fernet st) eqn:H1; [discriminate|].
  destruct (cryptography_installed env); simpl; [|discriminate].
  destruct (truthy (FERNET_KEY env)); simpl; [|discriminate].
  destruct (fernet_parts _) as [fs|e']; simpl.
  - destruct fs; simpl; intro H; inversion H; subst; simpl; exact H1.
  - destruct (catches _ _); intro H; inversion H; subst; exact H1.
Qed.

(** C9. A resolution that fails on an invalid key leaves [_fernet] unbound,
so the next call resolves again from the configuration it then finds: it
fails again on an invalid key, and binds a [MultiFernet] or a [NullFernet]
once the key has been corrected or emptied.  A resolution that returns is
cached: every later call returns the same object without touching the state,
whatever the configuration has become; one that raises never binds
[_fernet]. *)
Theorem failed_resolution_is_not_cached (env : environ) (st : process)
  (e : exn) :
  _fernet st = None -> cryptography_installed env = true ->
  structurally_invalid env e ->
  exists st',
    get_fernet env st
    = (Raise (mkExn AirflowException
                ("Could not create Fernet object: " ++ exn_msg e)), st')
    /\ _fernet st' = _fernet st
    /\ (forall env2 e2,
          cryptography_installed env2 = true -> structurally_invalid env2 e2 ->
          exists st2,
            get_fernet env2 st'
            = (Raise (mkExn AirflowException
                        ("Could not create Fernet object: " ++ exn_msg e2)), st2)
            /\ _fernet st2 = None)
    /\ (forall env2 fernets,
          cryptography_installed env2 = true ->
          truthy (FERNET_KEY env2) = true ->
          fernet_parts (text (FERNET_KEY env2)) = Ok fernets ->
          exists st2,
            get_fernet env2 st' = (Ok (MultiFernet fernets), st2)
            /\ _fernet st2 = Some (MultiFernet fernets))
    /\ (forall env2,
          cryptography_installed env2 = true ->
          truthy (FERNET_KEY env2) = false ->
          exists st2,
            get_fernet env2 st' = (Ok NullFernet, st2)
            /\ _fernet st2 = Some NullFernet)
    /\ (forall env1 st1 f st2,
          get_fernet env1 st1 = (Ok f, st2) ->
          _fernet st2 = Some f
          /\ forall env3, get_fernet env3 st2 = (Ok f, st2))
    /\ (forall env1 st1 e1 st2,
          get_fernet env1 st1 = (Raise e1, st2) -> _fernet st2 = None).
Proof.
  intros Hf Hi He; rewrite (get_fernet_invalid_key env st e Hf Hi He).
  match goal with |- exists _, (_, ?s) = _ /\ _ => set (st' := s) end.
  exists st'; split; [reflexivity|].
  split; [simpl; symmetry; exact Hf|].
  split; [|split; [|split; [|split]]].
  - intros env2 e2 Hi2 He2.
    rewrite (get_fernet_invalid_key env2 st' e2 eq_refl Hi2 He2).
    eexists; split; reflexivity.
  - intros env2 fernets Hi2 Hk2 Hp2.
    rewrite (get_fernet_valid_key env2 st' fernets eq_refl Hi2 Hk2 Hp2).
    eexists; split; reflexivity.
  - intros env2 Hi2 Hk2.
    rewrite (get_fernet_empty_key env2 st' eq_refl Hi2 Hk2).
    eexists; split; reflexivity.
  - intros env1 st1 f st2 Hg.
    pose proof (get_fernet_caches _ _ _ _ Hg) as Hc.
    split; [exact Hc | intro env3; apply get_fernet_cached; exact Hc].
  - intros env1 st1 e1 st2; apply get_fernet_raise_keeps.
Qed.
End ProviderClaims.

(** ** The class methods *)

Section Store.
Context {C : Cryptography} {D : PyData} {J : Json}.

Lemma set_val_key (self r : variable) (v : str) (env : environ)
  (st st' : process) :
  set_val self v env st = (Ok r, st') -> key r = key self.
Proof.
  unfold set_val; destruct (nonempty v).
  - unfold_monad.
    destruct (get_fernet env st) as [[f|e] st1]; [|discriminate].
    destruct (call_method f "encrypt" (encode_utf8 v) env st1)
      as [[t|e] st2]; [|discriminate].
    destruct (decode t); [|discriminate].
    intro H; inversion H; reflexivity.
  - unfold_monad; intro H; inversion H; reflexivity.
Qed.

Lemma set_unfold (s : session) (k : str) (value : pyval) (sj : bool)
  (env : environ) (st : process) :
  set s k value sj env st
  = match (if sj then json_dumps value else Ok (py_str value)) with
    | Raise e => (Raise e, st)
    | Ok stored =>
      match Variable_new k stored env st with
      | (Ok obj, st') => (Ok (add (delete s k) obj), st')
      | (Raise e, st') => (Raise e, st')
      end
    end.
Proof.
  unfold set; unfold_monad; destruct sj.
  - destruct (json_dumps value); [|reflexivity].
    destruct (Variable_new k a env st) as [[obj|e] st']; reflexivity.
  - destruct (Variable_new k (py_str value) env st) as [[obj|e] st'];
      reflexivity.
Qed.

Lemma get_absent (s : session) (k : str) (d : pyval) (dj : bool)
  (env : environ) (st : process) :
  absent s k ->
  get s k d dj env st
  = if is_not_None d then (Ok d, st)
    else (Raise (mkExn KeyError ("Variable " ++ k ++ " does not exist")), st).
Proof.
  intro H; apply query_filter_absent in H; unfold get; rewrite H; simpl.
  destruct (is_not_None d); reflexivity.
Qed.

Lemma get_present (s : session) (k : str) (r : variable) (d : pyval)
  (dj : bool) (env : environ) (st : process) :
  first (query_filter s k) = Some r ->
  get s k d dj env st
  = match get_val r env st with
    | (Ok v, st') =>
      if dj then
        match json_loads v with
        | Ok j => (Ok (Builtin j), st')
        | Raise e => (Raise e, st')
        end
      else (Ok (of_val v), st')
    | (Raise e, st') => (Raise e, st')
    end.
Proof.
  intro H; unfold get; rewrite H; unfold_monad.
  destruct dj; destruct (get_val r env st) as [[v|e] st']; try reflexivity;
    destruct (json_loads v); reflexivity.
Qed.

Lemma first_after_replace (s : session) (k : str) (r : variable) :
  key r = k -> query_filter (add (delete s k) r) k = [r].
Proof.
  intro H; rewrite query_filter_add, query_filter_delete_same, H.
  rewrite String.eqb_refl; reflexivity.
Qed.

Lemma other_after_replace (s : session) (k k' : str) (r : variable) :
  key r = k -> k' <> k ->
  query_filter (add (delete s k) r) k' = query_filter s k'.
Proof.
  intros H Hne; rewrite query_filter_add, query_filter_delete_other, H by exact Hne.
  destruct (String.eqb_spec k k'); [congruence | apply app_nil_r].
Qed.

Lemma provider_resolves_allocated (env : environ) (st : process) :
  provider_resolves env st -> provider_resolves env (allocated st).
Proof. exact (fun H => H). Qed.

(** Writing a non-empty text and reading it back, whichever cipher is
active. *)
Lemma Variable_new_then_get_val (k stored : str) (env : environ)
  (st : process) :
  tokens_are_text -> tokens_expand -> decrypt_inverts_encrypt ->
  provider_resolves env st -> nonempty stored = true -> is_text stored ->
  exists r st',
    Variable_new k stored env st = (Ok r, st')
    /\ key r = k
    /\ next_addr st' = next_addr st
    /\ forall env2 st2, _fernet st2 = _fernet st' ->
         get_val r env2 st2 = (Ok (Some stored), st2).
Proof.
  intros Htext Hexp Hinv [Hn | (k0 & ks & Hr)] Hne Ht; unfold Variable_new.
  - destruct (get_fernet_null_active _ _ Hn) as (st' & Hg & Hf & _ & Ha).
    exists {| key := k; _val := Some stored; is_encrypted := false |}, st'.
    split; [|split; [reflexivity | split; [exact Ha|]]].
    + unfold set_val; rewrite Hne; unfold bind at 1; rewrite Hg.
      unfold_monad; simpl. unfold encode_utf8; rewrite (decode_text _ Ht).
      reflexivity.
    + intros env2 st2 _; apply get_val_plain; simpl; apply andb_false_r.
  - destruct (get_fernet_real_active _ _ _ _ Hr) as (st' & Hg & Hf & Hd & Ha).
    set (token := MultiFernet_encrypt (k0 :: ks) (draws st) stored).
    exists {| key := k; _val := Some token; is_encrypted := true |}.
    eexists; split; [|split; [reflexivity | split]].
    + unfold set_val; rewrite Hne; unfold bind at 1; rewrite Hg.
      unfold_monad; simpl. unfold encode_utf8.
      rewrite Hd, (decode_text _ (Htext _ _ _)). reflexivity.
    + simpl; exact Ha.
    + simpl; intros env2 st2 H2.
      apply (get_val_real _ env2 st2 (k0 :: ks) token stored);
        try reflexivity; try assumption.
      * rewrite H2; exact Hf.
      * apply nonempty_length; specialize (Hexp (k0 :: ks) (draws st) stored).
        fold token in Hexp; lia.
      * apply Hinv.
Qed.
(** C4. Writing a non-empty text [v] under a key: with no real cipher the
new row is tagged [is_encrypted = False], holds [v], and reading it, by
[get_val] or by [get], returns [v]; with a real cipher the row is tagged
[is_encrypted = True] and what it holds is a token, different from [v]. *)
Theorem set_tags_the_row (s : session) (k v : str) (env : environ)
  (st : process) :
  nonempty v = true -> is_text v ->
  (null_active env st ->
   let r := {| key := k; _val := Some v; is_encrypted := false |} in
   exists st',
     set s k (PyStr v) false env st = (Ok (add (delete s k) r), st')
     /\ first (query_filter (add (delete s k) r) k) = Some r
     /\ (forall env2 st2, get_val r env2 st2 = (Ok (Some v), st2))
     /\ get (add (delete s k) r) k PyNone false env st' = (Ok (PyStr v), st'))
  /\ (forall k0 ks,
       tokens_are_text -> tokens_expand -> real_active env st k0 ks ->
       exists st' token,
         let r := {| key := k; _val := Some token; is_encrypted := true |} in
         set s k (PyStr v) false env st = (Ok (add (delete s k) r), st')
         /\ first (query_filter (add (delete s k) r) k) = Some r
         /\ token <> v).
Proof.
  intros Hne Ht; split.
  - intros Hn r.
    destruct (set_val_null_active {| key := k; _val := None;
                                     is_encrypted := false |} v env st Hn Hne Ht)
      as (st' & Hs & _).
    assert (Hg : forall env2 st2, get_val r env2 st2 = (Ok (Some v), st2)).
    { intros env2 st2; apply get_val_plain; simpl; apply andb_false_r. }
    assert (Hq : first (query_filter (add (delete s k) r) k) = Some r).
    { rewrite first_after_replace; reflexivity. }
    exists st'; repeat split; try assumption.
    + rewrite set_unfold; simpl; unfold Variable_new; rewrite Hs; reflexivity.
    + rewrite (get_present _ _ r _ _ _ _ Hq), Hg; reflexivity.
  - intros k0 ks Htext Hexp Hr.
    destruct (set_val_real_active {| key := k; _val := None;
                                     is_encrypted := false |} v env st k0 ks
                Htext Hr Hne) as (st' & Hs & _).
    exists st', (MultiFernet_encrypt (k0 :: ks) (draws st) v); simpl.
    repeat split.
    + rewrite set_unfold; simpl; unfold Variable_new; rewrite Hs; reflexivity.
    + rewrite first_after_replace; reflexivity.
    + intro E; specialize (Hexp (k0 :: ks) (draws st) v); rewrite E in Hexp; lia.
Qed.

(** C5. [get] on a key that no row has: a default other than [None] is
returned as it is, and without one [KeyError] is raised.  On a key that a
row has, [get] returns what [get_val] reads from the first such row, passed
through [json.loads] when [deserialize_json] is set. *)
Theorem get_missing_or_found (s : session) (k : str) (d : pyval) (dj : bool)
  (env : environ) (st : process) :
  (absent s k -> is_not_None d = true -> get s k d dj env st = (Ok d, st))
  /\ (absent s k ->
      get s k PyNone dj env st
      = (Raise (mkExn KeyError ("Variable " ++ k ++ " does not exist")), st))
  /\ (forall r, first (query_filter s k) = Some r ->
      exists v st',
        get_val r env st = (Ok v, st')
        /\ get s k d false env st = (Ok (of_val v), st')
        /\ get s k d true env st
           = match json_loads v with
             | Ok j => (Ok (Builtin j), st')
             | Raise e => (Raise e, st')
             end).
Proof.
  split; [|split].
  - intros Ha Hd; rewrite (get_absent _ _ _ _ _ _ Ha), Hd; reflexivity.
  - intros Ha; rewrite (get_absent _ _ _ _ _ _ Ha); reflexivity.
  - intros r Hr; destruct (get_val_total r env st) as (v & st' & Hv).
    exists v, st'; split; [exact Hv|].
    rewrite !(get_present _ _ r _ _ _ _ Hr), Hv; split; reflexivity.
Qed.

(** C10. When the first row of a key is tagged as encrypted and its
decryption fails, [get] with [deserialize_json] set raises [TypeError]:
[json.loads] is applied to the [None] that [get_val] degrades to.  Without
[deserialize_json] the same read returns [None]. *)
Theorem get_json_raises_on_failed_decryption (s : session) (k : str)
  (r : variable) (d : pyval) (env : environ) (st st1 : process) (e : exn) :
  first (query_filter s k) = Some r ->
  is_encrypted r = true -> truthy (_val r) = true ->
  decrypt_val r env st = (Raise e, st1) ->
  exists st',
    get s k d true env st
    = (Raise (mkExn TypeError
         "the JSON object must be str, bytes or bytearray, not NoneType"), st')
    /\ get s k d false env st = (Ok PyNone, st').
Proof.
  intros Hr He Hv Hd.
  pose proof (get_val_failed r env st st1 e He Hv Hd) as Hg.
  eexists; rewrite !(get_present _ _ r _ _ _ _ Hr), Hg; split; reflexivity.
Qed.
Lemma setdefault_unfold (s : session) (k : str) (d : pyval) (dj : bool)
  (env : environ) (st : process) :
  setdefault s k d dj env st
  = match get s k (PyObject (next_addr st)) dj env (allocated st) with
    | (Ok obj, st') =>
      if is_object obj (next_addr st) then
        if is_not_None d then
          match set s k d dj env st' with
          | (Ok s', st'') => (Ok (d, s'), st'')
          | (Raise e, st'') => (Raise e, st'')
          end
        else (Raise (mkExn ValueError "Default Value must be set"), st')
      else (Ok (obj, s), st')
    | (Raise e, st') => (Raise e, st')
    end.
Proof.
  unfold setdefault, bind at 1, new_object, allocated; unfold bind at 1.
  destruct (get s k (PyObject (next_addr st)) dj env _) as [[obj|e] st'];
    [|reflexivity].
  destruct (is_object obj (next_addr st)); [|reflexivity].
  destruct (is_not_None d); [|reflexivity].
  unfold bind, ret; destruct (set s k d dj env st') as [[s'|e] st''];
    reflexivity.
Qed.

Lemma setdefault_present (s : session) (k : str) (r : variable) (d : pyval)
  (dj : bool) (env : environ) (st : process) :
  first (query_filter s k) = Some r ->
  setdefault s k d dj env st
  = match get_val r env (allocated st) with
    | (Ok v, st') =>
      if dj then
        match json_loads v with
        | Ok j => (Ok (Builtin j, s), st')
        | Raise e => (Raise e, st')
        end
      else (Ok (of_val v, s), st')
    | (Raise e, st') => (Raise e, st')
    end.
Proof.
  intro Hr; rewrite setdefault_unfold, (get_present _ _ r _ _ _ _ Hr).
  destruct (get_val r env (allocated st)) as [[v|e] st']; [|reflexivity].
  destruct dj.
  - destruct (json_loads v); reflexivity.
  - destruct v; reflexivity.
Qed.

(** C7, as amended. [set] drops every row of the key and appends one new
row, built from the value alone: whenever it returns, the session holds
exactly one row for the key, the new one, and the rows of the other keys are
what they were.  The new row holds the written value when the text stored
for it ([str(value)], or [json.dumps(value)]) is not empty: whenever the
provider resolves, [set] then returns and [get] reads that text back,
whatever the key held before.  When that text is empty, [set_val] ignores
it: [set] returns under every configuration, the new row holds no value, and
[get] reads [None]. *)
Theorem set_replaces_the_row (s : session) (k : str) (value : pyval)
  (sj : bool) (env : environ) (st : process) :
  (forall s' st', set s k value sj env st = (Ok s', st') ->
     exists stored r,
       (if sj then json_dumps value else Ok (py_str value)) = Ok stored
       /\ Variable_new k stored env st = (Ok r, st')
       /\ s' = add (delete s k) r /\ key r = k
       /\ query_filter s' k = [r]
       /\ (forall k', k' <> k -> query_filter s' k' = query_filter s k'))
  /\ (tokens_are_text -> tokens_expand -> decrypt_inverts_encrypt ->
      provider_resolves env st ->
      forall stored,
        (if sj then json_dumps value else Ok (py_str value)) = Ok stored ->
        nonempty stored = true -> is_text stored ->
        exists s' st',
          set s k value sj env st = (Ok s', st')
          /\ get s' k PyNone false env st' = (Ok (PyStr stored), st'))
  /\ ((if sj then json_dumps value else Ok (py_str value)) = Ok EmptyString ->
      let r := {| key := k; _val := None; is_encrypted := false |} in
      set s k value sj env st = (Ok (add (delete s k) r), st)
      /\ query_filter (add (delete s k) r) k = [r]
      /\ forall d env2 st2,
           get (add (delete s k) r) k d false env2 st2 = (Ok PyNone, st2)).
Proof.
  split; [|split].
  - intros s' st'; rewrite set_unfold.
    destruct (if sj then json_dumps value else Ok (py_str value))
      as [stored|e]; [|discriminate].
    destruct (Variable_new k stored env st) as [[r|e] st1] eqn:Hn;
      [|discriminate].
    intro H; inversion H; subst s' st1; clear H.
    pose proof (set_val_key _ _ _ _ _ _ Hn) as Hk; simpl in Hk.
    exists stored, r; repeat split; try assumption.
    + apply first_after_replace; exact Hk.
    + intros k' Hne; apply other_after_replace; assumption.
  - intros Htext Hexp Hinv Hp stored Hs Hne Ht.
    destruct (Variable_new_then_get_val k stored env st Htext Hexp Hinv Hp
                Hne Ht) as (r & st' & Hn & Hk & _ & Hg).
    exists (add (delete s k) r), st'; split.
    + rewrite set_unfold, Hs, Hn; reflexivity.
    + rewrite (get_present _ _ r).
      * rewrite (Hg env st' eq_refl); reflexivity.
      * rewrite first_after_replace by exact Hk; reflexivity.
  - intros Hs r.
    assert (Hq : query_filter (add (delete s k) r) k = [r])
      by (apply first_after_replace; reflexivity).
    split; [rewrite set_unfold, Hs; reflexivity | split; [exact Hq|]].
    intros d env2 st2; rewrite (get_present _ _ r);
      [reflexivity | rewrite Hq; reflexivity].
Qed.

(** C6, as amended. [setdefault] on a key that no row has: with a default
other than [None] it calls [set] with that default and returns the default;
with [None] it raises [ValueError].  On a key that a row has it returns what
[get] reads from that row and leaves the session as it is, whatever the
default, equal to the stored text or not: the sentinel, a new [object()],
is never what a row reads as.  So after [setdefault(k, d)] on a missing key,
[setdefault(k, other)] writes nothing and returns the text stored for [d]:
[d] itself when [d] is a non-empty text, [str(d)] for another default whose
[str] is not empty, and [None] when that text is empty, which [set_val]
ignores. *)
Theorem setdefault_spec (s : session) (k : str) (d : pyval) (dj : bool)
  (env : environ) (st : process) :
  (absent s k -> is_not_None d = true ->
   setdefault s k d dj env st
   = match set s k d dj env (allocated st) with
     | (Ok s', st') => (Ok (d, s'), st')
     | (Raise e, st') => (Raise e, st')
     end)
  /\ (absent s k ->
      setdefault s k PyNone dj env st
      = (Raise (mkExn ValueError "Default Value must be set"), allocated st))
  /\ (forall r, first (query_filter s k) = Some r ->
      exists v st',
        get_val r env (allocated st) = (Ok v, st')
        /\ setdefault s k d false env st = (Ok (of_val v, s), st')
        /\ setdefault s k d true env st
           = match json_loads v with
             | Ok j => (Ok (Builtin j, s), st')
             | Raise e => (Raise e, st')
             end)
  /\ (forall r v st',
        first (query_filter s k) = Some r ->
        get s k (PyObject (next_addr st)) dj env (allocated st) = (Ok v, st') ->
        is_object v (next_addr st) = false)
  /\ (tokens_are_text -> tokens_expand -> decrypt_inverts_encrypt ->
      provider_resolves env st -> absent s k ->
      forall v, nonempty v = true -> is_text v ->
      exists s1 st1,
        setdefault s k (PyStr v) false env st = (Ok (PyStr v, s1), st1)
        /\ forall other, exists st2,
             setdefault s1 k other false env st1 = (Ok (PyStr v, s1), st2))
  /\ (tokens_are_text -> tokens_expand -> decrypt_inverts_encrypt ->
      provider_resolves env st -> absent s k -> is_not_None d = true ->
      nonempty (py_str d) = true -> is_text (py_str d) ->
      exists s1 st1,
        setdefault s k d false env st = (Ok (d, s1), st1)
        /\ forall other, exists st2,
             setdefault s1 k other false env st1
             = (Ok (PyStr (py_str d), s1), st2))
  /\ (absent s k -> is_not_None d = true -> py_str d = EmptyString ->
      let r := {| key := k; _val := None; is_encrypted := false |} in
      setdefault s k d false env st
      = (Ok (d, add (delete s k) r), allocated st)
      /\ forall other env2 st2,
           setdefault (add (delete s k) r) k other false env2 st2
           = (Ok (PyNone, add (delete s k) r), allocated st2)).
Proof.
  split; [|split; [|split; [|split; [|split; [|split]]]]].
  - intros Ha Hd; rewrite setdefault_unfold, (get_absent _ _ _ _ _ _ Ha); simpl.
    rewrite Nat.eqb_refl, Hd; reflexivity.
  - intros Ha; rewrite setdefault_unfold, (get_absent _ _ _ _ _ _ Ha); simpl.
    rewrite Nat.eqb_refl; reflexivity.
  - intros r Hr; destruct (get_val_total r env (allocated st)) as (v & st' & Hv).
    exists v, st'; split; [exact Hv|].
    rewrite !(setdefault_present _ _ r _ _ _ _ Hr), Hv; split; reflexivity.
  - intros r v st' Hr; rewrite (get_present _ _ r _ _ _ _ Hr).
    destruct (get_val r env (allocated st)) as [[w|e] st1]; [|discriminate].
    destruct dj.
    + destruct (json_loads w); [|discriminate].
      intro H; inversion H; reflexivity.
    + intro H; inversion H; destruct w; reflexivity.
  - intros Htext Hexp Hinv Hp Ha v Hne Ht.
    destruct (Variable_new_then_get_val k v env (allocated st) Htext Hexp Hinv
                (provider_resolves_allocated _ _ Hp) Hne Ht)
      as (r & st1 & Hn & Hk & _ & Hg).
    exists (add (delete s k) r), st1; split.
    + rewrite setdefault_unfold, (get_absent _ _ _ _ _ _ Ha); simpl.
      rewrite Nat.eqb_refl, set_unfold; simpl; rewrite Hn; reflexivity.
    + intro other; exists (allocated st1).
      rewrite (setdefault_present _ _ r).
      * rewrite (Hg env (allocated st1) eq_refl); reflexivity.
      * rewrite first_after_replace by exact Hk; reflexivity.
  - intros Htext Hexp Hinv Hp Ha Hd Hne Ht.
    destruct (Variable_new_then_get_val k (py_str d) env (allocated st) Htext
                Hexp Hinv (provider_resolves_allocated _ _ Hp) Hne Ht)
      as (r & st1 & Hn & Hk & _ & Hg).
    exists (add (delete s k) r), st1; split.
    + rewrite setdefault_unfold, (get_absent _ _ _ _ _ _ Ha); simpl.
      rewrite Nat.eqb_refl, Hd, set_unfold, Hn; reflexivity.
    + intro other; exists (allocated st1).
      rewrite (setdefault_present _ _ r).
      * rewrite (Hg env (allocated st1) eq_refl); reflexivity.
      * rewrite first_after_replace by exact Hk; reflexivity.
  - intros Ha Hd Hempty r; split.
    + rewrite setdefault_unfold, (get_absent _ _ _ _ _ _ Ha); simpl.
      rewrite Nat.eqb_refl, Hd, set_unfold, Hempty; reflexivity.
    + intros other env2 st2; rewrite (setdefault_present _ _ r);
        [reflexivity|].
      rewrite first_after_replace by reflexivity; reflexivity.
Qed.

(** C8. For a value [x] that [json.dumps] accepts, [set] with
[serialize_json] followed by [get] with [deserialize_json] returns what
[json.loads] makes of [json.dumps(x)], a value equivalent to [x].  When the
text of the row is not JSON, the exception of the decoder is what [get]
raises. *)
Theorem json_round_trip_through_the_store
  (equiv : pyval -> pyval -> Prop) (s : session) (k : str) (x : pyval)
  (env : environ) (st : process) :
  tokens_are_text -> tokens_expand -> decrypt_inverts_encrypt ->
  dumps_is_text -> dumps_is_nonempty -> loads_inverts_dumps equiv ->
  provider_resolves env st ->
  (forall stored, json_dumps x = Ok stored ->
     exists s' st' y,
       set s k x true env st = (Ok s', st')
       /\ json_decode stored = Ok y
       /\ get s' k PyNone true env st' = (Ok (Builtin y), st')
       /\ equiv x (Builtin y))
  /\ (forall r t e d st1,
        first (query_filter s k) = Some r ->
        get_val r env st = (Ok (Some t), st1) ->
        json_decode t = Raise e ->
        get s k d true env st = (Raise e, st1)).
Proof.
  intros Htext Hexp Hinv Hdt Hdn Hld Hp; split.
  - intros stored Hs.
    destruct (Hld x stored Hs) as (y & Hy & He).
    destruct (Variable_new_then_get_val k stored env st Htext Hexp Hinv Hp
                (Hdn x stored Hs) (Hdt x stored Hs))
      as (r & st' & Hn & Hk & _ & Hg).
    exists (add (delete s k) r), st', y; repeat split; try assumption.
    + rewrite set_unfold, Hs, Hn; reflexivity.
    + rewrite (get_present _ _ r).
      * rewrite (Hg env st' eq_refl); simpl; rewrite Hy; reflexivity.
      * rewrite first_after_replace by exact Hk; reflexivity.
  - intros r t e d st1 Hr Hg Hd.
    rewrite (get_present _ _ r _ _ _ _ Hr), Hg; simpl; rewrite Hd; reflexivity.
Qed.
End Store.

(** ** The small instance satisfies the assumptions *)

Lemma hex_digit_is_ascii (c : ascii) :
  byte_in 0 127 (hex_digit (N_of_ascii c / 16)) = true
  /\ byte_in 0 127 (hex_digit (N_of_ascii c mod 16)) = true.
Proof. destruct c as [[] [] [] [] [] [] [] []]; split; reflexivity. Qed.

Lemma hex_value_digit (c : ascii) :
  hex_value (hex_digit (N_of_ascii c / 16)) = Some (N_of_ascii c / 16)%N
  /\ hex_value (hex_digit (N_of_ascii c mod 16)) = Some (N_of_ascii c mod 16)%N
  /\ ascii_of_N (16 * (N_of_ascii c / 16) + N_of_ascii c mod 16) = c.
Proof. destruct c as [[] [] [] [] [] [] [] []]; repeat split; reflexivity. Qed.

Lemma is_utf8_ascii (c : ascii) (r : bytes) :
  byte_in 0 127 c = true -> is_utf8 (String c r) = is_utf8 r.
Proof. intro H; simpl; rewrite H; reflexivity. Qed.

Lemma hexlify_is_text (b : bytes) : is_utf8 (hexlify b) = true.
Proof.
  induction b as [|c r IH]; [reflexivity|].
  destruct (hex_digit_is_ascii c) as [H1 H2].
  cbn [hexlify]; rewrite (is_utf8_ascii _ _ H1), (is_utf8_ascii _ _ H2).
  exact IH.
Qed.

Lemma hexlify_length (b : bytes) :
  String.length (hexlify b) = 2 * String.length b.
Proof. induction b as [|c r IH]; cbn [hexlify String.length]; lia. Qed.

Lemma unhexlify_hexlify (b : bytes) : unhexlify (hexlify b) = Some b.
Proof.
  induction b as [|c r IH]; [reflexivity|].
  destruct (hex_value_digit c) as (H1 & H2 & H3).
  cbn [hexlify unhexlify]; rewrite H1, H2, IH, H3; reflexivity.
Qed.

Lemma demo_token_is_text (b : bytes) : is_utf8 (demo_token b) = true.
Proof.
  unfold demo_token, demo_header; cbv [String.append].
  rewrite !is_utf8_ascii by reflexivity; apply hexlify_is_text.
Qed.

Lemma demo_token_length (b : bytes) :
  String.length (demo_token b) = 7 + 2 * String.length b.
Proof.
  unfold demo_token, demo_header; cbv [String.append].
  cbn [String.length]; rewrite hexlify_length; lia.
Qed.

Lemma demo_open_token (b : bytes) : demo_open (demo_token b) = Ok b.
Proof.
  unfold demo_open, demo_token, demo_header; cbv [String.append].
  cbn [strip_prefix]; cbn; rewrite unhexlify_hexlify; reflexivity.
Qed.

Lemma demo_tokens_are_text : @tokens_are_text demo_cryptography.
Proof. intros fernets n b; apply demo_token_is_text. Qed.

Lemma demo_tokens_expand : @tokens_expand demo_cryptography.
Proof.
  intros fernets n b; cbn [MultiFernet_encrypt demo_cryptography].
  rewrite demo_token_length; lia.
Qed.

Lemma demo_decrypt_inverts_encrypt :
  @decrypt_inverts_encrypt demo_cryptography.
Proof. intros k ks n b; apply demo_open_token. Qed.

Lemma demo_dumps_is_text : @dumps_is_text demo_data demo_json.
Proof.
  intros x s; destruct x as [[| |[]]|]; cbn; intro H; inversion H; reflexivity.
Qed.

Lemma demo_dumps_is_nonempty : @dumps_is_nonempty demo_data demo_json.
Proof.
  intros x s; destruct x as [[| |[]]|]; cbn; intro H; inversion H; reflexivity.
Qed.

Lemma demo_loads_inverts_dumps : @loads_inverts_dumps demo_data demo_json eq.
Proof.
  intros x s; destruct x as [[| |[]]|]; cbn; intro H; inversion H;
    eexists; split; reflexivity.
Qed.

(** ** The theorems at work on the small instance *)

Section Demo.
#[local] Existing Instance demo_cryptography.
#[local] Existing Instance demo_data.
#[local] Existing Instance demo_json.

Lemma get_val_swallows_decryption_failure_witness :
  is_encrypted demo_garbage_row = true
  /\ truthy (_val demo_garbage_row) = true
  /\ exists reason,
       get_val demo_garbage_row (demo_env true (Some demo_key)) demo_resolved
       = (Ok None,
          logged ERROR ("Can't decrypt _val for key=k" ++ reason) demo_resolved).
Proof.
  split; [reflexivity | split; [reflexivity|]].
  destruct (get_val_swallows_decryption_failure demo_garbage_row
              (demo_env true (Some demo_key)) demo_resolved
              eq_refl eq_refl) as (_ & _ & H & _).
  exact (H [demo_key] (mkExn InvalidToken "") eq_refl eq_refl).
Defined.

Lemma get_fernet_invalid_or_empty_key_witness :
  _fernet module_loaded = None
  /\ structurally_invalid (demo_env true (Some "abc,def")) demo_bad_key
  /\ exists st',
       get_fernet (demo_env true (Some "abc,def")) module_loaded
       = (Raise (mkExn AirflowException
                   ("Could not create Fernet object: " ++ exn_msg demo_bad_key)),
          st')
       /\ _fernet st' = None /\ log st' = log module_loaded.
Proof.
  assert (Hinv : structurally_invalid (demo_env true (Some "abc,def"))
                   demo_bad_key) by (repeat split; reflexivity).
  split; [reflexivity | split; [exact Hinv|]].
  destruct (get_fernet_invalid_or_empty_key
              (demo_env true (Some "abc,def")) module_loaded eq_refl eq_refl)
    as (H & _).
  exact (H demo_bad_key Hinv).
Defined.

Lemma failed_resolution_is_not_cached_witness :
  structurally_invalid (demo_env true (Some "abc,def")) demo_bad_key
  /\ exists st',
       get_fernet (demo_env true (Some "abc,def")) module_loaded
       = (Raise (mkExn AirflowException
                   ("Could not create Fernet object: " ++ exn_msg demo_bad_key)),
          st')
       /\ _fernet st' = None
       /\ exists st2,
            get_fernet (demo_env true (Some demo_key)) st'
            = (Ok (MultiFernet [demo_key]), st2)
            /\ _fernet st2 = Some (MultiFernet [demo_key]).
Proof.
  assert (Hinv : structurally_invalid (demo_env true (Some "abc,def"))
                   demo_bad_key) by (repeat split; reflexivity).
  split; [exact Hinv|].
  destruct (failed_resolution_is_not_cached
              (demo_env true (Some "abc,def")) module_loaded demo_bad_key
              eq_refl eq_refl Hinv) as (st' & H1 & H2 & _ & H4 & _).
  exists st'; split; [exact H1 | split; [exact H2|]].
  exact (H4 (demo_env true (Some demo_key)) [demo_key]
            eq_refl eq_refl eq_refl).
Defined.

Lemma set_tags_the_row_witness :
  nonempty "hello" = true /\ is_text "hello"
  /\ null_active (demo_env true None) module_loaded
  /\ real_active (demo_env true (Some demo_key)) module_loaded demo_key []
  /\ (exists st',
        set [demo_plain_row] "k" (PyStr "hello") false
          (demo_env true None) module_loaded
        = (Ok [{| key := "k"; _val := Some "hello"; is_encrypted := false |}],
           st'))
  /\ (exists st' token,
        set [demo_plain_row] "k" (PyStr "hello") false
          (demo_env true (Some demo_key)) module_loaded
        = (Ok [{| key := "k"; _val := Some token; is_encrypted := true |}],
           st')
        /\ token <> "hello").
Proof.
  assert (Hn : null_active (demo_env true None) module_loaded)
    by (right; split; [reflexivity | right; reflexivity]).
  assert (Hr : real_active (demo_env true (Some demo_key)) module_loaded
                 demo_key [])
    by (right; repeat split; reflexivity).
  split; [reflexivity | split; [reflexivity | split; [exact Hn |
    split; [exact Hr | split]]]].
  - destruct (set_tags_the_row [demo_plain_row] "k" "hello"
                (demo_env true None) module_loaded eq_refl eq_refl)
      as (H & _).
    destruct (H Hn) as (st' & Hs & _); exists st'; exact Hs.
  - destruct (set_tags_the_row [demo_plain_row] "k" "hello"
                (demo_env true (Some demo_key)) module_loaded eq_refl eq_refl)
      as (_ & H).
    destruct (H demo_key [] demo_tokens_are_text demo_tokens_expand Hr)
      as (st' & token & Hs & _ & Hne).
    exists st', token; split; [exact Hs | exact Hne].
Defined.
Lemma get_missing_or_found_witness :
  absent [demo_plain_row] "missing"
  /\ get [demo_plain_row] "missing" (PyStr "x") false
       (demo_env true None) module_loaded
     = (Ok (PyStr "x"), module_loaded)
  /\ get [demo_plain_row] "missing" PyNone false
       (demo_env true None) module_loaded
     = (Raise (mkExn KeyError "Variable missing does not exist"),
        module_loaded)
  /\ get [demo_plain_row] "k" PyNone false (demo_env true None) module_loaded
     = (Ok (PyStr "old"), module_loaded).
Proof.
  assert (Ha : absent [demo_plain_row] "missing").
  { intros r [<-|[]]; discriminate. }
  split; [exact Ha | split; [|split]].
  - destruct (get_missing_or_found [demo_plain_row] "missing" (PyStr "x")
                false (demo_env true None) module_loaded) as (H & _).
    exact (H Ha eq_refl).
  - destruct (get_missing_or_found [demo_plain_row] "missing" (PyStr "x")
                false (demo_env true None) module_loaded) as (_ & H & _).
    exact (H Ha).
  - destruct (get_missing_or_found [demo_plain_row] "k" PyNone
                false (demo_env true None) module_loaded) as (_ & _ & H).
    destruct (H demo_plain_row eq_refl) as (v & st' & Hv & Hg & _).
    rewrite Hg; inversion Hv; reflexivity.
Defined.

Lemma get_json_raises_on_failed_decryption_witness :
  first (query_filter [demo_garbage_row] "k") = Some demo_garbage_row
  /\ decrypt_val demo_garbage_row (demo_env true (Some demo_key)) demo_resolved
     = (Raise (mkExn InvalidToken ""), demo_resolved)
  /\ exists st',
       get [demo_garbage_row] "k" PyNone true
         (demo_env true (Some demo_key)) demo_resolved
       = (Raise (mkExn TypeError
            "the JSON object must be str, bytes or bytearray, not NoneType"),
          st')
       /\ get [demo_garbage_row] "k" PyNone false
            (demo_env true (Some demo_key)) demo_resolved
          = (Ok PyNone, st').
Proof.
  split; [reflexivity | split; [reflexivity|]].
  exact (get_json_raises_on_failed_decryption [demo_garbage_row] "k"
           demo_garbage_row PyNone (demo_env true (Some demo_key))
           demo_resolved demo_resolved (mkExn InvalidToken "")
           eq_refl eq_refl eq_refl eq_refl).
Defined.

Lemma set_replaces_the_row_witness :
  let kept := {| key := "j"; _val := Some "kept"; is_encrypted := false |} in
  provider_resolves (demo_env true (Some demo_key)) module_loaded
  /\ nonempty "new" = true /\ is_text "new"
  /\ (exists s' st',
        set [demo_plain_row; kept] "k" (PyStr "new") false
          (demo_env true (Some demo_key)) module_loaded = (Ok s', st')
        /\ (exists r, query_filter s' "k" = [r])
        /\ query_filter s' "j" = [kept]
        /\ get s' "k" PyNone false (demo_env true (Some demo_key)) st'
           = (Ok (PyStr "new"), st'))
  /\ set [demo_plain_row; kept] "k" (PyStr EmptyString) false
       (demo_env true (Some demo_key)) module_loaded
     = (Ok [kept; {| key := "k"; _val := None; is_encrypted := false |}],
        module_loaded).
Proof.
  intro kept.
  assert (Hp : provider_resolves (demo_env true (Some demo_key)) module_loaded).
  { right; exists demo_key, []; right; repeat split; reflexivity. }
  split; [exact Hp | split; [reflexivity | split; [reflexivity | split]]].
  - destruct (set_replaces_the_row [demo_plain_row; kept] "k"
                (PyStr "new") false (demo_env true (Some demo_key))
                module_loaded) as (H1 & H2 & _).
    destruct (H2 demo_tokens_are_text demo_tokens_expand
                demo_decrypt_inverts_encrypt Hp "new" eq_refl eq_refl eq_refl)
      as (s' & st' & Hs & Hg).
    destruct (H1 s' st' Hs) as (stored & r & _ & _ & _ & _ & Hq & Ho).
    exists s', st'; split; [exact Hs | split; [exists r; exact Hq|]].
    split; [|exact Hg].
    rewrite (Ho "j"); [reflexivity | discriminate].
  - destruct (set_replaces_the_row [demo_plain_row; kept] "k"
                (PyStr EmptyString) false (demo_env true (Some demo_key))
                module_loaded) as (_ & _ & H3).
    destruct (H3 eq_refl) as (Hs & _); exact Hs.
Defined.

Lemma setdefault_spec_witness :
  provider_resolves (demo_env true None) module_loaded
  /\ absent [] "k" /\ nonempty "d" = true /\ is_text "d"
  /\ (exists s1 st1,
        setdefault [] "k" (PyStr "d") false (demo_env true None) module_loaded
        = (Ok (PyStr "d", s1), st1)
        /\ exists st2,
             setdefault s1 "k" (PyStr "other") false (demo_env true None) st1
             = (Ok (PyStr "d", s1), st2))
  /\ (exists s1 st1,
        setdefault [] "k" demo_True false (demo_env true None) module_loaded
        = (Ok (demo_True, s1), st1)
        /\ exists st2,
             setdefault s1 "k" (PyStr "other") false (demo_env true None) st1
             = (Ok (PyStr "True", s1), st2))
  /\ setdefault [] "k" (PyStr EmptyString) false (demo_env true None)
       module_loaded
     = (Ok (PyStr EmptyString,
            [{| key := "k"; _val := None; is_encrypted := false |}]),
        allocated module_loaded).
Proof.
  assert (Hp : provider_resolves (demo_env true None) module_loaded).
  { left; right; split; [reflexivity | right; reflexivity]. }
  assert (Ha : absent [] "k") by (intros r []).
  split; [exact Hp | split; [exact Ha | split; [reflexivity |
    split; [reflexivity | split; [|split]]]]].
  - destruct (setdefault_spec [] "k" PyNone false (demo_env true None)
                module_loaded) as (_ & _ & _ & _ & H & _).
    destruct (H demo_tokens_are_text demo_tokens_expand
                demo_decrypt_inverts_encrypt Hp Ha "d" eq_refl eq_refl)
      as (s1 & st1 & Hs & Hnext).
    exists s1, st1; split; [exact Hs | exact (Hnext (PyStr "other"))].
  - destruct (setdefault_spec [] "k" demo_True false (demo_env true None)
                module_loaded) as (_ & _ & _ & _ & _ & H & _).
    destruct (H demo_tokens_are_text demo_tokens_expand
                demo_decrypt_inverts_encrypt Hp Ha eq_refl eq_refl eq_refl)
      as (s1 & st1 & Hs & Hnext).
    exists s1, st1; split; [exact Hs | exact (Hnext (PyStr "other"))].
  - destruct (setdefault_spec [] "k" (PyStr EmptyString) false
                (demo_env true None) module_loaded)
      as (_ & _ & _ & _ & _ & _ & H).
    destruct (H Ha eq_refl eq_refl) as (Hs & _); exact Hs.
Defined.

Lemma json_round_trip_through_the_store_witness :
  provider_resolves (demo_env true (Some demo_key)) module_loaded
  /\ json_dumps demo_True = Ok "true"
  /\ exists s' st',
       set [] "k" demo_True true
         (demo_env true (Some demo_key)) module_loaded = (Ok s', st')
       /\ get s' "k" PyNone true (demo_env true (Some demo_key)) st'
          = (Ok demo_True, st').
Proof.
  assert (Hp : provider_resolves (demo_env true (Some demo_key)) module_loaded).
  { right; exists demo_key, []; right; repeat split; reflexivity. }
  split; [exact Hp | split; [reflexivity|]].
  destruct (json_round_trip_through_the_store eq [] "k"
              demo_True (demo_env true (Some demo_key))
              module_loaded demo_tokens_are_text demo_tokens_expand
              demo_decrypt_inverts_encrypt demo_dumps_is_text
              demo_dumps_is_nonempty demo_loads_inverts_dumps Hp) as (H & _).
  destruct (H "true" eq_refl) as (s' & st' & y & Hs & _ & Hg & He).
  exists s', st'; split; [exact Hs|]; rewrite He; exact Hg.
Defined.
(** C7, as first stated, fails on the empty text: [set] replaces the row of
the key by a row that holds no value, and [get] reads [None], not the empty
text that was written. *)
Lemma the_new_row_does_not_hold_an_empty_text :
  let s' := [{| key := "k"; _val := None; is_encrypted := false |}] in
  set [demo_plain_row] "k" (PyStr EmptyString) false (demo_env true None)
    module_loaded = (Ok s', module_loaded)
  /\ query_filter s' "k"
     = [{| key := "k"; _val := None; is_encrypted := false |}]
  /\ get s' "k" PyNone false (demo_env true None) module_loaded
     = (Ok PyNone, module_loaded)
  /\ get s' "k" PyNone false (demo_env true None) module_loaded
     <> (Ok (PyStr EmptyString), module_loaded).
Proof.
  intro s'; split; [reflexivity | split; [reflexivity | split; [reflexivity|]]].
  discriminate.
Qed.

(** C6, as first stated, fails on defaults that are not a non-empty text:
after [setdefault(k, '')] on a missing key, [setdefault(k, other)] returns
[None], not the empty text; after [setdefault(k, True)] it returns the text
['True'], not [True]. *)
Lemma a_later_setdefault_does_not_return_the_default :
  let s1 := [{| key := "k"; _val := None; is_encrypted := false |}] in
  let s2 := [{| key := "k"; _val := Some "True"; is_encrypted := false |}] in
  setdefault [] "k" (PyStr EmptyString) false (demo_env true None)
    module_loaded
  = (Ok (PyStr EmptyString, s1), allocated module_loaded)
  /\ setdefault s1 "k" (PyStr "other") false (demo_env true None)
       (allocated module_loaded)
     = (Ok (PyNone, s1), allocated (allocated module_loaded))
  /\ PyNone <> PyStr EmptyString
  /\ setdefault [] "k" demo_True false (demo_env true None) module_loaded
     = (Ok (demo_True, s2), allocated demo_warned)
  /\ setdefault s2 "k" (PyStr "other") false (demo_env true None)
       (allocated demo_warned)
     = (Ok (PyStr "True", s2), allocated (allocated demo_warned))
  /\ PyStr "True" <> demo_True.
Proof.
  intros s1 s2; repeat split; try reflexivity; discriminate.
Qed.
End Demo.

(** * Further properties of the module *)

(** ** Every operation advances the state and keeps it coherent *)

Create HintDb sound.

Section Soundness.
Context {C : Cryptography} {D : PyData} {J : Json}.

Lemma advances_refl (st : process) : advances st st.
Proof.
  repeat split; auto.
  exists []; symmetry; apply app_nil_r.
Qed.

Lemma advances_trans (st1 st2 st3 : process) :
  advances st1 st2 -> advances st2 st3 -> advances st1 st3.
Proof.
  intros (F1 & (l1 & L1) & A1 & D1) (F2 & (l2 & L2) & A2 & D2).
  repeat split; [auto | | lia | lia].
  exists (l1 ++ l2)%list; rewrite L2, L1, app_assoc; reflexivity.
Qed.

Lemma module_loaded_coherent : coherent module_loaded.
Proof. split; [left; reflexivity | intros fernets H; discriminate]. Qed.

Ltac step_state :=
  intros env st; simpl; split;
  [ repeat split; simpl; auto;
    try (eexists; reflexivity); exists []; symmetry; apply app_nil_r
  | unfold coherent; simpl; auto ].

Lemma sound_ret {A} (a : A) : sound (ret a).
Proof. step_state. Qed.

Lemma sound_raise {A} (c : exn_class) (msg : string) : sound (@raise _ A c msg).
Proof. step_state. Qed.

Lemma sound_reraise {A} (e : exn) : sound (@reraise _ A e).
Proof. step_state. Qed.

Lemma sound_lift {A} (r : result A) : sound (lift r).
Proof. step_state. Qed.

Lemma sound_asks {A} (f : environ -> A) : sound (asks f).
Proof. step_state. Qed.

Lemma sound_gets {A} (f : process -> A) : sound (gets f).
Proof. step_state. Qed.

Lemma sound_warning (msg : string) : sound (warning msg).
Proof. step_state. Qed.

Lemma sound_error (msg : string) : sound (error msg).
Proof. step_state. Qed.

Lemma sound_draw : sound draw.
Proof. step_state. Qed.

Lemma sound_new_object : sound new_object.
Proof. step_state. Qed.

Lemma sound_bind {A B} (m : M A) (k : A -> M B) :
  sound m -> (forall a, sound (k a)) -> sound (bind m k).
Proof.
  intros Hm Hk env st; unfold bind.
  destruct (Hm env st) as [Ha Hc].
  destruct (m env st) as [[a|e] st1]; simpl in *; [|split; assumption].
  destruct (Hk a env st1) as [Ha' Hc'].
  split; [eapply advances_trans; eassumption | auto].
Qed.

Lemma sound_try_except {A} (body : M A) (handler : exn -> M A) :
  sound body -> (forall e, sound (handler e)) -> sound (try_except body handler).
Proof.
  intros Hm Hk env st; unfold try_except.
  destruct (Hm env st) as [Ha Hc].
  destruct (body env st) as [[a|e] st1]; simpl in *; [split; assumption|].
  destruct (Hk e env st1) as [Ha' Hc'].
  split; [eapply advances_trans; eassumption | auto].
Qed.

#[local] Hint Resolve sound_ret sound_raise sound_reraise sound_lift sound_asks
  sound_gets sound_warning sound_error sound_draw sound_new_object : sound.

Ltac sound_steps :=
  repeat first
    [ solve [auto with sound]
    | apply sound_bind; [|intro]
    | apply sound_try_except; [|intro]
    | match goal with
      | |- sound (if ?b then _ else _) => destruct b
      | |- sound (match ?x with _ => _ end) => destruct x
      end ].

Lemma sound_get_fernet : sound get_fernet.
Proof.
  intros env st; unfold get_fernet; unfold_monad.
  destruct (_fernet st) as [f|] eqn:Hf; simpl;
    [split; [apply advances_refl | auto]|].
  assert (Hnone : forall f, _fernet st = Some f -> False) by congruence.
  assert (Hadv : forall st',
            (exists l, log st' = (log st ++ l)%list) ->
            next_addr st' = next_addr st -> draws st' = draws st ->
            advances st st').
  { intros st' Hl Ha Hd; split; [intros f H; destruct (Hnone f H)|].
    split; [exact Hl | lia]. }
  destruct (cryptography_installed env); simpl.
  - destruct (truthy (FERNET_KEY env)); simpl.
    + destruct (fernet_parts _) as [[|k ks]|e]; simpl;
        [| |destruct (catches _ e); simpl];
        (split; [apply Hadv; simpl; auto; exists []; symmetry; apply app_nil_r|]);
        intros _; (split; simpl; [right; reflexivity|]);
        intros fernets H; try congruence.
      inversion H; split; [reflexivity | discriminate].
    + split; [apply Hadv; simpl; auto; eexists; reflexivity|].
      intros _; split; simpl; [right; reflexivity | discriminate].
  - split; [apply Hadv; simpl; auto; eexists; reflexivity|].
    intros [Hc _]; split; simpl; [exact Hc | discriminate].
Qed.

Lemma sound_call_method (f : cipher) (name : string) (b : bytes) :
  sound (call_method f name b).
Proof. unfold call_method; sound_steps. Qed.

#[local] Hint Resolve sound_get_fernet sound_call_method : sound.

Lemma sound_decrypt_val (self : variable) : sound (decrypt_val self).
Proof. unfold decrypt_val; sound_steps. Qed.

#[local] Hint Resolve sound_decrypt_val : sound.

Lemma sound_get_val (self : variable) : sound (get_val self).
Proof. unfold get_val; sound_steps. Qed.

Lemma sound_set_val (self : variable) (value : str) : sound (set_val self value).
Proof. unfold set_val; sound_steps. Qed.

Lemma sound_rotate_fernet_key (self : variable) : sound (rotate_fernet_key self).
Proof. unfold rotate_fernet_key; sound_steps. Qed.

#[local] Hint Resolve sound_get_val sound_set_val : sound.

Lemma sound_get (s : session) (k : str) (d : pyval) (dj : bool) :
  sound (get s k d dj).
Proof. unfold get; sound_steps. Qed.

Lemma sound_set (s : session) (k : str) (value : pyval) (sj : bool) :
  sound (set s k value sj).
Proof. unfold set, Variable_new; sound_steps. Qed.

#[local] Hint Resolve sound_get sound_set : sound.

Lemma sound_setdefault (s : session) (k : str) (d : pyval) (dj : bool) :
  sound (setdefault s k d dj).
Proof. unfold setdefault; sound_steps. Qed.
End Soundness.

Section StateInvariants.
Context {C : Cryptography} {D : PyData} {J : Json}.

(** X1. Whatever an operation of the module does from a state, returning or
raising, the state it leaves comes after: a provider that was cached is
still the cached one (its identity never changes within a process), the log
has only been appended to, and the counters have not gone back. *)
Theorem operations_advance_the_state (env : environ) (st : process) :
  advances st (snd (get_fernet env st))
  /\ (forall r, advances st (snd (get_val r env st)))
  /\ (forall r v, advances st (snd (set_val r v env st)))
  /\ (forall r, advances st (snd (rotate_fernet_key r env st)))
  /\ (forall s k d dj, advances st (snd (get s k d dj env st)))
  /\ (forall s k v sj, advances st (snd (set s k v sj env st)))
  /\ (forall s k d dj, advances st (snd (setdefault s k d dj env st))).
Proof.
  split; [apply sound_get_fernet|].
  split; [intro r; apply sound_get_val|].
  split; [intros r v; apply sound_set_val|].
  split; [intro r; apply sound_rotate_fernet_key|].
  split; [intros s k d dj; apply sound_get|].
  split; [intros s k v sj; apply sound_set|].
  intros s k d dj; apply sound_setdefault.
Qed.

(** X2. The state at import time is coherent, and every operation of the
module keeps a coherent state coherent, returning or raising: a
[MultiFernet] is only ever cached with at least one key and after
[InvalidFernetToken] has been rebound to the class of the library. *)
Theorem operations_keep_the_state_coherent (env : environ) (st : process) :
  coherent module_loaded
  /\ (coherent st ->
      coherent (snd (get_fernet env st))
      /\ (forall r, coherent (snd (get_val r env st)))
      /\ (forall r v, coherent (snd (set_val r v env st)))
      /\ (forall r, coherent (snd (rotate_fernet_key r env st)))
      /\ (forall s k d dj, coherent (snd (get s k d dj env st)))
      /\ (forall s k v sj, coherent (snd (set s k v sj env st)))
      /\ (forall s k d dj, coherent (snd (setdefault s k d dj env st)))).
Proof.
  split; [apply module_loaded_coherent|]; intro Hc.
  split; [apply sound_get_fernet; exact Hc|].
  split; [intro r; apply sound_get_val; exact Hc|].
  split; [intros r v; apply sound_set_val; exact Hc|].
  split; [intro r; apply sound_rotate_fernet_key; exact Hc|].
  split; [intros s k d dj; apply sound_get; exact Hc|].
  split; [intros s k v sj; apply sound_set; exact Hc|].
  intros s k d dj; apply sound_setdefault; exact Hc.
Qed.

(** X3. Which of its two messages [get_val] logs, in a coherent state, for
a row tagged as encrypted: "invalid token or value" when the cached
[MultiFernet] rejects the stored text with [InvalidToken];
"FERNET_KEY configuration missing" when no key is configured, and also when
the configured key is invalid. *)
Theorem get_val_names_the_failure (r : variable) (env : environ)
  (st : process) :
  coherent st -> is_encrypted r = true -> truthy (_val r) = true ->
  (forall fernets e,
     _fernet st = Some (MultiFernet fernets) ->
     MultiFernet_decrypt fernets (text (_val r)) = Raise e ->
     exn_cls e = InvalidToken ->
     get_val r env st
     = (Ok None,
        logged ERROR ("Can't decrypt _val for key=" ++ key r
                      ++ ", invalid token or value") st))
  /\ (null_active env st ->
      exists st1,
        get_fernet env st = (Ok NullFernet, st1)
        /\ get_val r env st
           = (Ok None,
              logged ERROR ("Can't decrypt _val for key=" ++ key r
                            ++ ", FERNET_KEY configuration missing") st1))
  /\ (forall e,
        _fernet st = None -> cryptography_installed env = true ->
        structurally_invalid env e ->
        exists st1,
          _fernet st1 = None
          /\ get_val r env st
             = (Ok None,
                logged ERROR ("Can't decrypt _val for key=" ++ key r
                              ++ ", FERNET_KEY configuration missing") st1)).
Proof.
  intros Hc He Hv; split; [|split].
  - intros fernets e Hf Hd Hcls.
    assert (Hdv : decrypt_val r env st = (Raise e, st)).
    { unfold decrypt_val, bind at 1; rewrite (get_fernet_cached env st _ Hf).
      unfold_monad; simpl. unfold encode_utf8; rewrite Hd; reflexivity. }
    rewrite (get_val_failed r env st st e He Hv Hdv).
    destruct Hc as [_ Hm]; destruct (Hm fernets Hf) as [Ht _].
    unfold isinstance; rewrite Ht, Hcls; reflexivity.
  - intro Hn; destruct (get_fernet_null_active _ _ Hn) as (st1 & Hg & _).
    exists st1; split; [exact Hg|].
    set (e := mkExn AttributeError
                "'NullFernet' object has no attribute 'decrypt'").
    assert (Hdv : decrypt_val r env st = (Raise e, st1)).
    { unfold decrypt_val, bind at 1; rewrite Hg; reflexivity. }
    rewrite (get_val_failed r env st st1 e He Hv Hdv).
    pose proof (proj2 (sound_get_fernet env st) Hc) as Hc1.
    rewrite Hg in Hc1; simpl in Hc1; destruct Hc1 as [[Ht|Ht] _];
      rewrite Ht; reflexivity.
  - intros e Hf Hi Hinv.
    pose proof (get_fernet_invalid_key env st e Hf Hi Hinv) as Hg.
    match type of Hg with _ = (Raise ?x, ?s1) =>
      assert (Hdv : decrypt_val r env st = (Raise x, s1))
        by (unfold decrypt_val, bind at 1; rewrite Hg; reflexivity);
      exists s1; split; [reflexivity|];
      rewrite (get_val_failed r env st s1 x He Hv Hdv)
    end.
    reflexivity.
Qed.
End StateInvariants.

(** ** Writes and reads under each configuration *)

Section Configurations.
Context {C : Cryptography} {D : PyData} {J : Json}.

Lemma set_val_raises (self : variable) (v : str) (env : environ)
  (st st' : process) (e : exn) :
  nonempty v = true -> get_fernet env st = (Raise e, st') ->
  set_val self v env st = (Raise e, st').
Proof.
  intros Hv Hg; unfold set_val; rewrite Hv; unfold bind at 1; rewrite Hg.
  reflexivity.
Qed.

Lemma set_val_in_clear (self : variable) (v : str) (env : environ)
  (st st' : process) :
  nonempty v = true -> is_text v -> get_fernet env st = (Ok NullFernet, st') ->
  set_val self v env st
  = (Ok {| key := key self; _val := Some v; is_encrypted := false |}, st').
Proof.
  intros Hv Ht Hg; unfold set_val; rewrite Hv; unfold bind at 1; rewrite Hg.
  unfold_monad; simpl. unfold encode_utf8; rewrite (decode_text _ Ht).
  reflexivity.
Qed.

Lemma get_of_single_row (s : session) (k : str) (r : variable) (d : pyval)
  (dj : bool) (env : environ) (st : process) :
  key r = k ->
  get (add (delete s k) r) k d dj env st
  = match get_val r env st with
    | (Ok v, st') =>
      if dj then
        match json_loads v with
        | Ok j => (Ok (Builtin j), st')
        | Raise e => (Raise e, st')
        end
      else (Ok (of_val v), st')
    | (Raise e, st') => (Raise e, st')
    end.
Proof.
  intro Hk; apply get_present.
  rewrite (first_after_replace s k r Hk); reflexivity.
Qed.

(** X4. [set] of the empty text never consults the provider, so it returns
under every configuration, an invalid key included, and leaves the process
as it was; the rows of the key are replaced by one row whose value is null.
From then on [get] of the key returns [None], whatever default it is given,
and raises [TypeError] with [deserialize_json]. *)
Theorem set_of_the_empty_text (s : session) (k : str) (env : environ)
  (st : process) :
  let r := {| key := k; _val := None; is_encrypted := false |} in
  set s k (PyStr "") false env st = (Ok (add (delete s k) r), st)
  /\ (forall d env2 st2,
        get (add (delete s k) r) k d false env2 st2 = (Ok PyNone, st2))
  /\ (forall d env2 st2,
        get (add (delete s k) r) k d true env2 st2
        = (Raise (mkExn TypeError
             "the JSON object must be str, bytes or bytearray, not NoneType"),
           st2)).
Proof.
  intro r; split; [reflexivity|].
  split; intros d env2 st2; rewrite (get_of_single_row s k r _ _ _ _ eq_refl);
    reflexivity.
Qed.

(** X5. While the configured key is invalid (and nothing is cached): every
[set] of a non-empty text raises [AirflowException] and caches nothing, so
the next one raises again; a row stored in clear is still read as it is,
without a log entry; a row tagged as encrypted reads as [None]. *)
Theorem invalid_key_fails_writes_not_reads (env : environ) (st : process)
  (e : exn) :
  _fernet st = None -> cryptography_installed env = true ->
  structurally_invalid env e ->
  (forall s k value (sj : bool) stored,
     (if sj then json_dumps value else Ok (py_str value)) = Ok stored ->
     nonempty stored = true ->
     exists st',
       set s k value sj env st
       = (Raise (mkExn AirflowException
                   ("Could not create Fernet object: " ++ exn_msg e)), st')
       /\ _fernet st' = None /\ log st' = log st)
  /\ (forall s k r d,
        first (query_filter s k) = Some r -> is_encrypted r = false ->
        get s k d false env st = (Ok (of_val (_val r)), st))
  /\ (forall s k r d,
        first (query_filter s k) = Some r ->
        is_encrypted r = true -> truthy (_val r) = true ->
        exists st', get s k d false env st = (Ok PyNone, st')).
Proof.
  intros Hf Hi Hinv.
  pose proof (get_fernet_invalid_key env st e Hf Hi Hinv) as Hg.
  split; [|split].
  - intros s k value sj stored Hs Hne.
    rewrite set_unfold, Hs; unfold Variable_new.
    rewrite (set_val_raises _ stored env st _ _ Hne Hg).
    eexists; split; [reflexivity | split; reflexivity].
  - intros s k r d Hr He; rewrite (get_present _ _ r _ _ _ _ Hr).
    rewrite get_val_plain; [reflexivity | rewrite He; apply andb_false_r].
  - intros s k r d Hr He Hv; rewrite (get_present _ _ r _ _ _ _ Hr).
    match type of Hg with _ = (Raise ?x, ?s1) =>
      assert (Hdv : decrypt_val r env st = (Raise x, s1))
        by (unfold decrypt_val, bind at 1; rewrite Hg; reflexivity);
      rewrite (get_val_failed r env st s1 x He Hv Hdv)
    end.
    eexists; reflexivity.
Qed.
(** X6. Without [cryptography] the key setting is never read: nothing
cached, [set] of a non-empty text returns whatever the key setting is,
stores the text in clear with [is_encrypted = False], logs the one warning
and leaves [InvalidFernetToken] as it was; [get] reads the text back, and
later writes find the [NullFernet] cached and log nothing more. *)
Theorem without_cryptography_values_are_in_clear (s : session) (k v : str)
  (env : environ) (st : process) :
  _fernet st = None -> cryptography_installed env = false ->
  nonempty v = true -> is_text v ->
  let r := {| key := k; _val := Some v; is_encrypted := false |} in
  exists st',
    set s k (PyStr v) false env st = (Ok (add (delete s k) r), st')
    /\ log st' = (log st ++ [(WARNING,
         "cryptography not found - values will not be stored encrypted.")])%list
    /\ InvalidFernetToken st' = InvalidFernetToken st
    /\ get (add (delete s k) r) k PyNone false env st' = (Ok (PyStr v), st')
    /\ (forall s2 k2 v2,
          nonempty v2 = true -> is_text v2 ->
          set s2 k2 (PyStr v2) false env st'
          = (Ok (add (delete s2 k2)
                   {| key := k2; _val := Some v2; is_encrypted := false |}),
             st')).
Proof.
  intros Hf Hi Hv Ht r.
  pose proof (get_fernet_not_installed env st Hf Hi) as Hg.
  match type of Hg with _ = (_, ?s1) => set (st' := s1) in * end.
  exists st'; split; [|split; [reflexivity | split; [reflexivity | split]]].
  - rewrite set_unfold; simpl; unfold Variable_new.
    rewrite (set_val_in_clear _ v env st st' Hv Ht Hg); reflexivity.
  - rewrite (get_of_single_row s k r _ _ _ _ eq_refl).
    rewrite get_val_plain by (simpl; apply andb_false_r); reflexivity.
  - intros s2 k2 v2 Hv2 Ht2.
    rewrite set_unfold; simpl; unfold Variable_new.
    rewrite (set_val_in_clear _ v2 env st' st' Hv2 Ht2); [reflexivity|].
    apply get_fernet_cached; reflexivity.
Qed.

(** X7. A non-empty text written under a real cipher outlives the process
that wrote it: a process that resolves the same keys reads the text back,
and a process with no key configured reads [None], neither the token nor an
exception. *)
Theorem tokens_outlive_the_process (s : session) (k v : str) (env : environ)
  (st : process) (k0 : FernetKey) (ks : list FernetKey) :
  tokens_are_text -> tokens_expand -> decrypt_inverts_encrypt ->
  real_active env st k0 ks -> nonempty v = true -> is_text v ->
  exists s' st',
    set s k (PyStr v) false env st = (Ok s', st')
    /\ (forall env2 st2,
          real_active env2 st2 k0 ks ->
          exists st3, get s' k PyNone false env2 st2 = (Ok (PyStr v), st3))
    /\ (forall env2 st2,
          null_active env2 st2 ->
          exists st3, get s' k PyNone false env2 st2 = (Ok PyNone, st3)).
Proof.
  intros Htext Hexp Hinv Hr Hv Ht.
  destruct (set_val_real_active {| key := k; _val := None;
                                   is_encrypted := false |} v env st k0 ks
              Htext Hr Hv) as (st' & Hs & _).
  set (token := MultiFernet_encrypt (k0 :: ks) (draws st) v) in *.
  set (r := {| key := k; _val := Some token; is_encrypted := true |}).
  assert (Hne : nonempty token = true).
  { apply nonempty_length; specialize (Hexp (k0 :: ks) (draws st) v).
    fold token in Hexp; lia. }
  exists (add (delete s k) r), st'; split; [|split].
  - rewrite set_unfold; simpl; unfold Variable_new; rewrite Hs; reflexivity.
  - intros env2 st2 Hr2.
    destruct (get_fernet_real_active _ _ _ _ Hr2) as (st3 & Hg & _).
    exists st3; rewrite (get_of_single_row s k r _ _ _ _ eq_refl).
    assert (Hgv : get_val r env2 st2 = (Ok (Some v), st3)).
    { unfold get_val, decrypt_val; simpl; rewrite Hne; simpl.
      unfold try_except, bind at 1; rewrite Hg.
      unfold_monad; simpl. unfold encode_utf8, token; rewrite (Hinv k0 ks).
      rewrite (decode_text _ Ht); reflexivity. }
    rewrite Hgv; reflexivity.
  - intros env2 st2 Hn.
    destruct (get_fernet_null_active _ _ Hn) as (st3 & Hg & _).
    rewrite (get_of_single_row s k r _ _ _ _ eq_refl).
    assert (Hdv : decrypt_val r env2 st2
                  = (Raise (mkExn AttributeError
                       "'NullFernet' object has no attribute 'decrypt'"), st3)).
    { unfold decrypt_val, bind at 1; rewrite Hg; reflexivity. }
    rewrite (get_val_failed r env2 st2 st3 _ eq_refl Hne Hdv).
    eexists; reflexivity.
Qed.
End Configurations.

(** ** Key rotation *)

Section Rotation.
Context {C : Cryptography}.

Lemma rotate_fernet_key_unfold (r : variable) (env : environ) (st : process) :
  rotate_fernet_key r env st
  = match get_fernet env st with
    | (Raise e, st') => (Raise e, st')
    | (Ok fernet, st') =>
      if truthy (_val r) && is_encrypted r then
        match call_method fernet "rotate" (text (_val r)) env st' with
        | (Raise e, st'') => (Raise e, st'')
        | (Ok token, st'') =>
          match decode token with
          | Raise e => (Raise e, st'')
          | Ok v =>
            (Ok {| key := key r; _val := Some v;
                   is_encrypted := is_encrypted r |}, st'')
          end
        end
      else (Ok r, st')
    end.
Proof.
  unfold rotate_fernet_key, bind at 1.
  destruct (get_fernet env st) as [[f|e] st']; [|reflexivity].
  destruct (truthy (_val r) && is_encrypted r); [|reflexivity].
  unfold bind at 1, encode_utf8.
  destruct (call_method f "rotate" (text (_val r)) env st')
    as [[token|e] st'']; [|reflexivity].
  unfold_monad; destruct (decode token); reflexivity.
Qed.

Lemma call_rotate_real (fernets : list FernetKey) (b : bytes) (env : environ)
  (st : process) :
  exists st',
    call_method (MultiFernet fernets) "rotate" b env st
    = (MultiFernet_rotate fernets (draws st) b, st')
    /\ _fernet st' = _fernet st.
Proof.
  unfold call_method; simpl; unfold_monad.
  destruct (MultiFernet_rotate fernets (draws st) b);
    eexists; split; reflexivity.
Qed.

Lemma decrypt_val_cached (r : variable) (env : environ) (st : process)
  (fernets : list FernetKey) :
  _fernet st = Some (MultiFernet fernets) ->
  decrypt_val r env st
  = match MultiFernet_decrypt fernets (text (_val r)) with
    | Raise e => (Raise e, st)
    | Ok plain =>
      match decode plain with
      | Raise e => (Raise e, st)
      | Ok v => (Ok (Some v), st)
      end
    end.
Proof.
  intro Hf; unfold decrypt_val, bind at 1.
  rewrite (get_fernet_cached env st _ Hf).
  unfold_monad; simpl; unfold encode_utf8.
  destruct (MultiFernet_decrypt fernets (text (_val r))) as [plain|e];
    [|reflexivity].
  destruct (decode plain); reflexivity.
Qed.

(** X8. Rotating a row tagged as encrypted under a real cipher keeps its
key and its tag, replaces the stored token by the one [MultiFernet.rotate]
returns, and changes no read: under the same cipher [get_val] gives for the
rotated row what it gives for the row before, to the log entry. *)
Theorem rotate_fernet_key_keeps_reads (r : variable) (env : environ)
  (st : process) (k0 : FernetKey) (ks : list FernetKey) (token' : bytes) :
  rotation_keeps_plaintext -> real_active env st k0 ks ->
  is_encrypted r = true -> truthy (_val r) = true ->
  MultiFernet_rotate (k0 :: ks) (draws st) (text (_val r)) = Ok token' ->
  let r' := {| key := key r; _val := Some token'; is_encrypted := true |} in
  exists st',
    rotate_fernet_key r env st = (Ok r', st')
    /\ _fernet st' = Some (MultiFernet (k0 :: ks))
    /\ forall env2 st2,
         _fernet st2 = Some (MultiFernet (k0 :: ks)) ->
         get_val r' env2 st2 = get_val r env2 st2.
Proof.
  intros Hlaw Hr He Hv Hrot r'.
  destruct (get_fernet_real_active _ _ _ _ Hr) as (st1 & Hg & Hf & Hd & _).
  destruct (call_rotate_real (k0 :: ks) (text (_val r)) env st1)
    as (st' & Hc & Hf').
  destruct (Hlaw _ _ _ _ Hrot) as (Htext & Hne & Hdec).
  exists st'; split; [|split; [congruence|]].
  - rewrite rotate_fernet_key_unfold, Hg, Hv, He, Hc, Hd, Hrot; simpl.
    rewrite (decode_text _ Htext); reflexivity.
  - intros env2 st2 Hf2.
    assert (Hdv : decrypt_val r' env2 st2 = decrypt_val r env2 st2).
    { rewrite !(decrypt_val_cached _ env2 st2 _ Hf2); simpl.
      rewrite Hdec; reflexivity. }
    unfold get_val; rewrite Hv, He; simpl; rewrite Hne; simpl.
    unfold try_except; rewrite Hdv; reflexivity.
Qed.

(** X9. [rotate_fernet_key] resolves the provider before it looks at the
row and swallows nothing.  A row that is not tagged as encrypted, or is
empty, is returned as it is once the provider resolves, but an invalid key
raises [AirflowException] even for such a row; a row tagged as encrypted
raises [AttributeError] under the null cipher, which has no [rotate], and
under a real cipher whatever [MultiFernet.rotate] raises. *)
Theorem rotate_fernet_key_failures (r : variable) (env : environ)
  (st : process) :
  (truthy (_val r) && is_encrypted r = false -> provider_resolves env st ->
   exists st', rotate_fernet_key r env st = (Ok r, st'))
  /\ (forall e,
        _fernet st = None -> cryptography_installed env = true ->
        structurally_invalid env e ->
        exists st',
          rotate_fernet_key r env st
          = (Raise (mkExn AirflowException
                      ("Could not create Fernet object: " ++ exn_msg e)), st'))
  /\ (is_encrypted r = true -> truthy (_val r) = true -> null_active env st ->
      exists st',
        rotate_fernet_key r env st
        = (Raise (mkExn AttributeError
                    "'NullFernet' object has no attribute 'rotate'"), st'))
  /\ (forall k0 ks e,
        is_encrypted r = true -> truthy (_val r) = true ->
        real_active env st k0 ks ->
        MultiFernet_rotate (k0 :: ks) (draws st) (text (_val r)) = Raise e ->
        exists st', rotate_fernet_key r env st = (Raise e, st')).
Proof.
  split; [|split; [|split]].
  - intros Hp [Hn | (k0 & ks & Hr)].
    + destruct (get_fernet_null_active _ _ Hn) as (st' & Hg & _).
      exists st'; rewrite rotate_fernet_key_unfold, Hg, Hp; reflexivity.
    + destruct (get_fernet_real_active _ _ _ _ Hr) as (st' & Hg & _).
      exists st'; rewrite rotate_fernet_key_unfold, Hg, Hp; reflexivity.
  - intros e Hf Hi Hinv.
    rewrite rotate_fernet_key_unfold, (get_fernet_invalid_key env st e Hf Hi Hinv).
    eexists; reflexivity.
  - intros He Hv Hn; destruct (get_fernet_null_active _ _ Hn) as (st' & Hg & _).
    exists st'; rewrite rotate_fernet_key_unfold, Hg, Hv, He; reflexivity.
  - intros k0 ks e He Hv Hr Hrot.
    destruct (get_fernet_real_active _ _ _ _ Hr) as (st1 & Hg & _ & Hd & _).
    destruct (call_rotate_real (k0 :: ks) (text (_val r)) env st1)
      as (st' & Hc & _).
    exists st'; rewrite rotate_fernet_key_unfold, Hg, Hv, He, Hc, Hd, Hrot.
    reflexivity.
Qed.
End Rotation.

(** ** The session *)

Section Sessions.
Context {C : Cryptography} {D : PyData} {J : Json}.

Lemma set_returns (s s' : session) (k : str) (value : pyval) (sj : bool)
  (env : environ) (st st' : process) :
  set s k value sj env st = (Ok s', st') ->
  exists r, key r = k /\ s' = add (delete s k) r.
Proof.
  rewrite set_unfold.
  destruct (if sj then json_dumps value else Ok (py_str value))
    as [stored|e]; [|discriminate].
  destruct (Variable_new k stored env st) as [[r|e] st1] eqn:Hn;
    [|discriminate].
  intro H; inversion H; subst; exists r; split; [|reflexivity].
  exact (set_val_key _ _ _ _ _ _ Hn).
Qed.

Lemma setdefault_returns (s s' : session) (k : str) (d v : pyval) (dj : bool)
  (env : environ) (st st' : process) :
  setdefault s k d dj env st = (Ok (v, s'), st') ->
  (present s k /\ s' = s)
  \/ (absent s k /\ exists r, key r = k /\ s' = add (delete s k) r).
Proof.
  destruct (first (query_filter s k)) as [r|] eqn:Hq.
  - rewrite (setdefault_present s k r d dj env st Hq); intro H; left.
    split; [exists r; exact Hq|].
    destruct (get_val r env (allocated st)) as [[w|e] st1]; [|discriminate].
    destruct dj; [destruct (json_loads w); [|discriminate]|];
      inversion H; reflexivity.
  - assert (Ha : absent s k).
    { apply query_filter_absent; destruct (query_filter s k);
        [reflexivity | discriminate]. }
    rewrite setdefault_unfold, (get_absent _ _ _ _ _ _ Ha); simpl.
    rewrite Nat.eqb_refl; destruct (is_not_None d); [|discriminate].
    destruct (set s k d dj env (allocated st)) as [[s1|e] st1] eqn:Hs;
      [|discriminate].
    intro H; injection H as _ Hs' _; right; split; [exact Ha|].
    rewrite <- Hs'; exact (set_returns s s1 k d dj env _ _ Hs).
Qed.

Lemma replace_keeps_keys_unique (s : session) (k : str) (r : variable) :
  key r = k -> unique_keys s -> unique_keys (add (delete s k) r).
Proof.
  unfold unique_keys, add, delete; intros Hk Hu; rewrite map_app; simpl.
  apply NoDup_app.
  - induction s as [|x s IH]; simpl; [constructor|].
    simpl in Hu; apply NoDup_cons_iff in Hu as [Hx Hs].
    destruct (String.eqb (key x) k); simpl; [apply IH; exact Hs|].
    constructor; [|apply IH; exact Hs].
    intro Hin; apply Hx; apply in_map_iff in Hin as (y & Hy & Hin).
    apply filter_In in Hin as [Hin _]; apply in_map_iff; eauto.
  - constructor; [intros [] | constructor].
  - intros a Ha [<-|[]]; apply in_map_iff in Ha as (y & Hy & Hin).
    apply filter_In in Hin as [_ Hin]; rewrite Hy, Hk in Hin.
    rewrite String.eqb_refl in Hin; discriminate.
Qed.

(** X10. The writes keep the column [key] unique: when no two rows of the
session share a key, none do in the session that [set] or [setdefault]
returns. *)
Theorem writes_keep_keys_unique (s : session) :
  unique_keys s ->
  (forall k value sj env st s' st',
     set s k value sj env st = (Ok s', st') -> unique_keys s')
  /\ (forall k d dj env st v s' st',
        setdefault s k d dj env st = (Ok (v, s'), st') -> unique_keys s').
Proof.
  intro Hu; split.
  - intros k value sj env st s' st' Hs.
    destruct (set_returns s s' k value sj env st st' Hs) as (r & Hk & ->).
    apply replace_keeps_keys_unique; assumption.
  - intros k d dj env st v s' st' Hs.
    destruct (setdefault_returns s s' k d v dj env st st' Hs)
      as [[_ ->] | (_ & r & Hk & ->)]; [exact Hu|].
    apply replace_keeps_keys_unique; assumption.
Qed.

(** X11. A [set] on one key changes no read of another: after it, [get] of
any other key behaves, for every default, flag, configuration and state, as
it did on the session before. *)
Theorem set_leaves_other_keys (s s' : session) (k : str) (value : pyval)
  (sj : bool) (env : environ) (st st' : process) :
  set s k value sj env st = (Ok s', st') ->
  forall k', k' <> k ->
    (absent s' k' <-> absent s k')
    /\ forall d dj env2 st2,
         get s' k' d dj env2 st2 = get s k' d dj env2 st2.
Proof.
  intros Hs k' Hne.
  destruct (set_returns s s' k value sj env st st' Hs) as (r & Hk & ->).
  pose proof (other_after_replace s k k' r Hk Hne) as Hq; split.
  - rewrite !query_filter_absent, Hq; reflexivity.
  - intros d dj env2 st2; unfold get; rewrite Hq; reflexivity.
Qed.

(** X12. [setdefault] writes a key at most once: the key has a row in the
session it returns; it returns the session it was given when the key had a
row already; and no later [setdefault] on that key, whatever its default,
flag, configuration and state, returns another session. *)
Theorem setdefault_writes_at_most_once (s s1 : session) (k : str)
  (d v : pyval) (dj : bool) (env : environ) (st st1 : process) :
  setdefault s k d dj env st = (Ok (v, s1), st1) ->
  present s1 k
  /\ (present s k -> s1 = s)
  /\ forall d2 dj2 env2 st2 v2 s2 st3,
       setdefault s1 k d2 dj2 env2 st2 = (Ok (v2, s2), st3) -> s2 = s1.
Proof.
  intro Hs.
  assert (Hp : present s1 k).
  { destruct (setdefault_returns s s1 k d v dj env st st1 Hs)
      as [[Hp ->] | (_ & r & Hk & ->)]; [exact Hp|].
    exists r; rewrite (first_after_replace s k r Hk); reflexivity. }
  split; [exact Hp | split].
  - intros [r Hr].
    destruct (setdefault_returns s s1 k d v dj env st st1 Hs)
      as [[_ ->] | (Ha & _)]; [reflexivity|].
    apply query_filter_absent in Ha; rewrite Ha in Hr; discriminate.
  - intros d2 dj2 env2 st2 v2 s2 st3 Hs2.
    destruct (setdefault_returns s1 s2 k d2 v2 dj2 env2 st2 st3 Hs2)
      as [[_ ->] | (Ha & _)]; [reflexivity|].
    destruct Hp as [r Hr].
    apply query_filter_absent in Ha; rewrite Ha in Hr; discriminate.
Qed.

(** X13. On a key whose row is tagged as encrypted and cannot be decrypted,
[setdefault] neither stores nor returns its default: it returns [None] and
the session as it was, and with [deserialize_json] it raises [TypeError]. *)
Theorem setdefault_on_an_unreadable_row (s : session) (k : str)
  (r : variable) (d : pyval) (env : environ) (st st1 : process) (e : exn) :
  first (query_filter s k) = Some r ->
  is_encrypted r = true -> truthy (_val r) = true ->
  decrypt_val r env (allocated st) = (Raise e, st1) ->
  exists st',
    setdefault s k d false env st = (Ok (PyNone, s), st')
    /\ setdefault s k d true env st
       = (Raise (mkExn TypeError
            "the JSON object must be str, bytes or bytearray, not NoneType"),
          st').
Proof.
  intros Hr He Hv Hd.
  pose proof (get_val_failed r env (allocated st) st1 e He Hv Hd) as Hg.
  eexists; rewrite !(setdefault_present s k r d _ env st Hr), Hg.
  split; reflexivity.
Qed.
End Sessions.

(** ** The key setting *)

Section KeySetting.
Context {C : Cryptography}.

Lemma concat_after_empty (sep : ascii) (l : list str) :
  l <> [] ->
  String.concat (String sep EmptyString) (EmptyString :: l)
  = String sep (String.concat (String sep EmptyString) l).
Proof. destruct l; [congruence | reflexivity]. Qed.

Lemma concat_head (sep c : ascii) (hd : str) (tl : list str) :
  String.concat (String sep EmptyString) (String c hd :: tl)
  = String c (String.concat (String sep EmptyString) (hd :: tl)).
Proof. destruct tl; reflexivity. Qed.

Lemma split_concat (sep : ascii) (s : str) :
  String.concat (String sep EmptyString) (split sep s) = s.
Proof.
  induction s as [|c rest IH]; [reflexivity|].
  cbn [split]; destruct (Ascii.eqb_spec c sep) as [->|Hne].
  - rewrite (concat_after_empty sep _ (split_nonempty sep rest)), IH.
    reflexivity.
  - pose proof (split_nonempty sep rest) as Hn.
    destruct (split sep rest) as [|hd tl]; [congruence|].
    rewrite concat_head, IH; reflexivity.
Qed.

Lemma comprehension_Ok {A B} (f : A -> result B) (l : list A) (ys : list B) :
  comprehension f l = Ok ys <-> Forall2 (fun x y => f x = Ok y) l ys.
Proof.
  revert ys; induction l as [|x l IH]; intro ys; simpl.
  - split; [intro H; inversion H; constructor | intro H; inversion H; reflexivity].
  - destruct (f x) as [y|e] eqn:Hx.
    + destruct (comprehension f l) as [ys'|e] eqn:Hl.
      * split.
        -- intro H; inversion H; subst; constructor; [exact Hx|].
           apply IH; reflexivity.
        -- intro H; inversion H as [|? y0 ? ys0 Hy Hrest]; subst.
           rewrite Hx in Hy; inversion Hy; subst.
           apply IH in Hrest; inversion Hrest; reflexivity.
      * split; [discriminate|].
        intro H; inversion H as [|? y0 ? ys0 Hy Hrest]; subst.
        apply IH in Hrest; discriminate.
    + split; [discriminate|].
      intro H; inversion H as [|? y0 ? ys0 Hy Hrest]; subst.
      rewrite Hx in Hy; discriminate.
Qed.

Lemma comprehension_stops {A B} (f : A -> result B) (before after : list A)
  (x : A) (ys : list B) (e : exn) :
  Forall2 (fun x y => f x = Ok y) before ys -> f x = Raise e ->
  comprehension f (before ++ x :: after) = Raise e.
Proof.
  intros Hb Hx; induction Hb as [|b y before ys Hy _ IH]; simpl.
  - rewrite Hx; reflexivity.
  - rewrite Hy, IH; reflexivity.
Qed.

Lemma comprehension_Raise {A B} (f : A -> result B) (l : list A) (e : exn) :
  comprehension f l = Raise e
  <-> exists before x after ys,
        l = (before ++ x :: after)%list
        /\ Forall2 (fun x y => f x = Ok y) before ys
        /\ f x = Raise e.
Proof.
  split.
  - induction l as [|x l IH]; simpl; [discriminate|].
    destruct (f x) as [y|e'] eqn:Hx.
    + destruct (comprehension f l) as [ys'|e'']; [discriminate|].
      intro H; destruct (IH H) as (before & x' & after & ys & Hl & Hb & Hx').
      exists (x :: before), x', after, (y :: ys).
      split; [rewrite Hl; reflexivity | split; [|exact Hx']].
      constructor; assumption.
    + intro H; inversion H; subst e'.
      exists [], x, l, []; split; [reflexivity | split; [constructor | exact Hx]].
  - intros (before & x & after & ys & Hl & Hb & Hx); rewrite Hl.
    exact (comprehension_stops f before after x ys e Hb Hx).
Qed.

(** X14. The key setting is read part by part: its comma-separated parts,
joined by commas, are the setting; [get_fernet] builds the cipher from one
[Fernet] per part, in the order of the setting, exactly when [Fernet]
accepts every part; otherwise the error is the one [Fernet] raises on the
first part it rejects. *)
Theorem the_key_setting_is_read_part_by_part (fernet_key : str) :
  String.concat "," (split "," fernet_key) = fernet_key
  /\ (forall fernets,
        fernet_parts fernet_key = Ok fernets
        <-> Forall2 (fun part k => Fernet part = Ok k)
              (split "," fernet_key) fernets)
  /\ (forall e,
        fernet_parts fernet_key = Raise e
        <-> exists before part after fernets,
              split "," fernet_key = (before ++ part :: after)%list
              /\ Forall2 (fun part k => Fernet part = Ok k) before fernets
              /\ Fernet part = Raise e)
  /\ (forall env st fernets,
        _fernet st = None -> cryptography_installed env = true ->
        FERNET_KEY env = Some fernet_key -> nonempty fernet_key = true ->
        Forall2 (fun part k => Fernet part = Ok k)
          (split "," fernet_key) fernets ->
        exists st',
          get_fernet env st = (Ok (MultiFernet fernets), st')
          /\ _fernet st' = Some (MultiFernet fernets)).
Proof.
  split; [apply split_concat|].
  split; [intro fernets; apply comprehension_Ok|].
  split; [intro e; apply comprehension_Raise|].
  intros env st fernets Hf Hi Hk Hne Hall.
  assert (Hp : fernet_parts (text (FERNET_KEY env)) = Ok fernets).
  { rewrite Hk; simpl; apply comprehension_Ok; exact Hall. }
  assert (Ht : truthy (FERNET_KEY env) = true) by (rewrite Hk; exact Hne).
  rewrite (get_fernet_valid_key env st fernets Hf Hi Ht Hp).
  eexists; split; reflexivity.
Qed.
End KeySetting.

(** ** Assigning to [val] of a row that exists *)

Section Assignment.
Context {C : Cryptography}.

(** X15. Assigning a non-empty text to [val] of a row replaces what the row
held, value and tag: the outcome depends on the row only through its key,
and reading the row back under the provider then cached gives the text.
Assigning the empty text changes neither the row nor the process, so the
row still holds its earlier value. *)
Theorem set_val_overwrites_or_does_nothing (self : variable) (v : str)
  (env : environ) (st : process) :
  (set_val self EmptyString env st = (Ok self, st))
  /\ (nonempty v = true ->
      set_val self v env st
      = set_val {| key := key self; _val := None; is_encrypted := false |}
          v env st)
  /\ (tokens_are_text -> tokens_expand -> decrypt_inverts_encrypt ->
      provider_resolves env st -> nonempty v = true -> is_text v ->
      exists r st',
        set_val self v env st = (Ok r, st')
        /\ key r = key self
        /\ forall env2 st2, _fernet st2 = _fernet st' ->
             get_val r env2 st2 = (Ok (Some v), st2)).
Proof.
  split; [reflexivity | split].
  - intro Hv; unfold set_val; rewrite Hv; reflexivity.
  - intros Htext Hexp Hinv Hp Hv Ht.
    destruct (Variable_new_then_get_val (key self) v env st Htext Hexp Hinv
                Hp Hv Ht) as (r & st' & Hn & Hk & _ & Hg).
    exists r, st'; split; [|split; assumption].
    unfold Variable_new in Hn; rewrite <- Hn.
    unfold set_val; rewrite Hv; reflexivity.
Qed.
End Assignment.

(** ** The further properties at work on the small instance *)

Lemma demo_rotation_keeps_plaintext :
  @rotation_keeps_plaintext demo_cryptography.
Proof.
  intros fernets n token token'; cbn [MultiFernet_rotate MultiFernet_decrypt
                                        demo_cryptography].
  destruct (demo_open token) as [b|e]; [|discriminate].
  intro H; inversion H; subst token'.
  split; [apply demo_token_is_text | split; [|apply demo_open_token]].
  apply nonempty_length; rewrite demo_token_length; lia.
Qed.

Lemma demo_resolved_coherent : @coherent demo_cryptography demo_resolved.
Proof.
  split; [right; reflexivity|].
  intros fernets H; inversion H; split; [reflexivity | discriminate].
Qed.

Section MoreDemo.
#[local] Existing Instance demo_cryptography.
#[local] Existing Instance demo_data.
#[local] Existing Instance demo_json.

Lemma operations_keep_the_state_coherent_witness :
  coherent module_loaded
  /\ coherent (snd (set [] "k" (PyStr "hello") false
                      (demo_env true (Some demo_key)) module_loaded)).
Proof.
  destruct (operations_keep_the_state_coherent
              (demo_env true (Some demo_key)) module_loaded) as (H0 & H).
  split; [exact H0|].
  destruct (H H0) as (_ & _ & _ & _ & _ & Hs & _).
  exact (Hs [] "k" (PyStr "hello") false).
Defined.

Lemma get_val_names_the_failure_witness :
  coherent demo_resolved
  /\ is_encrypted demo_garbage_row = true
  /\ truthy (_val demo_garbage_row) = true
  /\ get_val demo_garbage_row (demo_env true (Some demo_key)) demo_resolved
     = (Ok None,
        logged ERROR "Can't decrypt _val for key=k, invalid token or value"
          demo_resolved).
Proof.
  split; [exact demo_resolved_coherent | split; [reflexivity |
    split; [reflexivity|]]].
  destruct (get_val_names_the_failure demo_garbage_row
              (demo_env true (Some demo_key)) demo_resolved
              demo_resolved_coherent eq_refl eq_refl) as (H & _).
  exact (H [demo_key] (mkExn InvalidToken EmptyString) eq_refl eq_refl eq_refl).
Defined.

Lemma invalid_key_fails_writes_not_reads_witness :
  structurally_invalid (demo_env true (Some "abc,def")) demo_bad_key
  /\ (exists st',
        set [demo_plain_row] "k" (PyStr "new") false
          (demo_env true (Some "abc,def")) module_loaded
        = (Raise (mkExn AirflowException
                    ("Could not create Fernet object: " ++ exn_msg demo_bad_key)),
           st')
        /\ _fernet st' = None /\ log st' = log module_loaded)
  /\ get [demo_plain_row] "k" PyNone false
       (demo_env true (Some "abc,def")) module_loaded
     = (Ok (PyStr "old"), module_loaded).
Proof.
  assert (Hinv : structurally_invalid (demo_env true (Some "abc,def"))
                   demo_bad_key) by (repeat split; reflexivity).
  split; [exact Hinv|].
  destruct (invalid_key_fails_writes_not_reads
              (demo_env true (Some "abc,def")) module_loaded demo_bad_key
              eq_refl eq_refl Hinv) as (Hw & Hr & _).
  split.
  - exact (Hw [demo_plain_row] "k" (PyStr "new") false "new" eq_refl eq_refl).
  - exact (Hr [demo_plain_row] "k" demo_plain_row PyNone eq_refl eq_refl).
Defined.

Lemma without_cryptography_values_are_in_clear_witness :
  _fernet module_loaded = None
  /\ nonempty "hello" = true /\ is_text "hello"
  /\ exists st',
       set [] "k" (PyStr "hello") false (demo_env false (Some "abc,def"))
         module_loaded
       = (Ok [{| key := "k"; _val := Some "hello"; is_encrypted := false |}],
          st')
       /\ get [{| key := "k"; _val := Some "hello"; is_encrypted := false |}]
            "k" PyNone false (demo_env false (Some "abc,def")) st'
          = (Ok (PyStr "hello"), st').
Proof.
  split; [reflexivity | split; [reflexivity | split; [reflexivity|]]].
  destruct (without_cryptography_values_are_in_clear [] "k" "hello"
              (demo_env false (Some "abc,def")) module_loaded
              eq_refl eq_refl eq_refl eq_refl)
    as (st' & Hs & _ & _ & Hg & _).
  exists st'; split; [exact Hs | exact Hg].
Defined.

Lemma tokens_outlive_the_process_witness :
  real_active (demo_env true (Some demo_key)) module_loaded demo_key []
  /\ null_active (demo_env true None) module_loaded
  /\ exists s' st',
       set [] "k" (PyStr "hello") false (demo_env true (Some demo_key))
         module_loaded = (Ok s', st')
       /\ (exists st3,
             get s' "k" PyNone false (demo_env true (Some demo_key))
               module_loaded = (Ok (PyStr "hello"), st3))
       /\ (exists st3,
             get s' "k" PyNone false (demo_env true None) module_loaded
             = (Ok PyNone, st3)).
Proof.
  assert (Hr : real_active (demo_env true (Some demo_key)) module_loaded
                 demo_key [])
    by (right; repeat split; reflexivity).
  assert (Hn : null_active (demo_env true None) module_loaded)
    by (right; split; [reflexivity | right; reflexivity]).
  split; [exact Hr | split; [exact Hn|]].
  destruct (tokens_outlive_the_process (C:=demo_cryptography) [] "k" "hello"
              (demo_env true (Some demo_key)) module_loaded demo_key []
              demo_tokens_are_text demo_tokens_expand
              demo_decrypt_inverts_encrypt Hr eq_refl eq_refl)
    as (s' & st' & Hs & Hsame & Hnone).
  exists s', st'; split; [exact Hs | split].
  - exact (Hsame _ _ Hr).
  - exact (Hnone _ _ Hn).
Defined.
Lemma rotate_fernet_key_keeps_reads_witness :
  let r := {| key := "k"; _val := Some "gAAAAAB68656c6c6f";
              is_encrypted := true |} in
  real_active (demo_env true (Some demo_key)) demo_resolved demo_key []
  /\ MultiFernet_rotate [demo_key] (draws demo_resolved) (text (_val r))
     = Ok "gAAAAAB68656c6c6f"
  /\ exists st',
       rotate_fernet_key r (demo_env true (Some demo_key)) demo_resolved
       = (Ok r, st')
       /\ get_val r (demo_env true (Some demo_key)) st'
          = (Ok (Some "hello"), st').
Proof.
  intro r.
  assert (Hr : real_active (demo_env true (Some demo_key)) demo_resolved
                 demo_key []) by (left; reflexivity).
  split; [exact Hr | split; [reflexivity|]].
  destruct (rotate_fernet_key_keeps_reads (C:=demo_cryptography) r
              (demo_env true (Some demo_key)) demo_resolved demo_key []
              "gAAAAAB68656c6c6f" demo_rotation_keeps_plaintext Hr
              eq_refl eq_refl eq_refl) as (st' & Hrot & Hf & Hsame).
  exists st'; split; [exact Hrot|].
  rewrite <- (Hsame (demo_env true (Some demo_key)) st' Hf).
  apply (get_val_real (C:=demo_cryptography) _ _ st' [demo_key]
           "gAAAAAB68656c6c6f" "hello"); try reflexivity; exact Hf.
Defined.

Lemma rotate_fernet_key_failures_witness :
  null_active (demo_env true None) module_loaded
  /\ exists st',
       rotate_fernet_key demo_garbage_row (demo_env true None) module_loaded
       = (Raise (mkExn AttributeError
                   "'NullFernet' object has no attribute 'rotate'"), st').
Proof.
  assert (Hn : null_active (demo_env true None) module_loaded)
    by (right; split; [reflexivity | right; reflexivity]).
  split; [exact Hn|].
  destruct (rotate_fernet_key_failures demo_garbage_row (demo_env true None)
              module_loaded) as (_ & _ & H & _).
  exact (H eq_refl eq_refl Hn).
Defined.

Lemma writes_keep_keys_unique_witness :
  let s' := [{| key := "k"; _val := Some "new"; is_encrypted := false |}] in
  unique_keys [demo_plain_row]
  /\ set [demo_plain_row] "k" (PyStr "new") false (demo_env true None)
       module_loaded = (Ok s', demo_warned)
  /\ unique_keys s'.
Proof.
  intro s'.
  assert (Hu : unique_keys [demo_plain_row]).
  { constructor; [intros [] | constructor]. }
  assert (Hs : set [demo_plain_row] "k" (PyStr "new") false
                 (demo_env true None) module_loaded = (Ok s', demo_warned))
    by reflexivity.
  split; [exact Hu | split; [exact Hs|]].
  destruct (writes_keep_keys_unique [demo_plain_row] Hu) as (H & _).
  exact (H "k" (PyStr "new") false (demo_env true None) module_loaded
           s' demo_warned Hs).
Defined.

Lemma set_leaves_other_keys_witness :
  let kept := {| key := "j"; _val := Some "kept"; is_encrypted := false |} in
  let s' := [kept; {| key := "k"; _val := Some "new";
                      is_encrypted := false |}] in
  set [demo_plain_row; kept] "k" (PyStr "new") false (demo_env true None)
    module_loaded = (Ok s', demo_warned)
  /\ get s' "j" PyNone false (demo_env true None) demo_warned
     = (Ok (PyStr "kept"), demo_warned).
Proof.
  intros kept s'.
  assert (Hs : set [demo_plain_row; kept] "k" (PyStr "new") false
                 (demo_env true None) module_loaded = (Ok s', demo_warned))
    by reflexivity.
  split; [exact Hs|].
  destruct (set_leaves_other_keys [demo_plain_row; kept] s' "k" (PyStr "new")
              false (demo_env true None) module_loaded demo_warned Hs "j")
    as (_ & H); [discriminate|].
  rewrite (H PyNone false (demo_env true None) demo_warned); reflexivity.
Defined.

Lemma setdefault_writes_at_most_once_witness :
  let s1 := [{| key := "k"; _val := Some "d"; is_encrypted := false |}] in
  setdefault [] "k" (PyStr "d") false (demo_env true None) module_loaded
  = (Ok (PyStr "d", s1), allocated demo_warned)
  /\ present s1 "k"
  /\ forall v2 s2 st3,
       setdefault s1 "k" (PyStr "other") true (demo_env true None)
         (allocated demo_warned)
       = (Ok (v2, s2), st3) -> s2 = s1.
Proof.
  intro s1.
  assert (Hs : setdefault [] "k" (PyStr "d") false (demo_env true None)
                 module_loaded
               = (Ok (PyStr "d", s1), allocated demo_warned)) by reflexivity.
  split; [exact Hs|].
  destruct (setdefault_writes_at_most_once [] s1 "k" (PyStr "d") (PyStr "d")
              false (demo_env true None) module_loaded (allocated demo_warned)
              Hs) as (Hp & _ & Hn).
  split; [exact Hp|].
  intros v2 s2 st3; apply Hn.
Defined.

Lemma setdefault_on_an_unreadable_row_witness :
  first (query_filter [demo_garbage_row] "k") = Some demo_garbage_row
  /\ decrypt_val demo_garbage_row (demo_env true (Some demo_key))
       (allocated demo_resolved)
     = (Raise (mkExn InvalidToken EmptyString), allocated demo_resolved)
  /\ exists st',
       setdefault [demo_garbage_row] "k" (PyStr "d") false
         (demo_env true (Some demo_key)) demo_resolved
       = (Ok (PyNone, [demo_garbage_row]), st').
Proof.
  split; [reflexivity | split; [reflexivity|]].
  destruct (setdefault_on_an_unreadable_row [demo_garbage_row] "k"
              demo_garbage_row (PyStr "d") (demo_env true (Some demo_key))
              demo_resolved (allocated demo_resolved)
              (mkExn InvalidToken EmptyString) eq_refl eq_refl eq_refl eq_refl)
    as (st' & H & _).
  exists st'; exact H.
Defined.

Lemma the_key_setting_is_read_part_by_part_witness :
  let setting := demo_key ++ "," ++ demo_key in
  split "," setting = [demo_key; demo_key]
  /\ exists st',
       get_fernet (demo_env true (Some setting)) module_loaded
       = (Ok (MultiFernet [demo_key; demo_key]), st').
Proof.
  intro setting; split; [reflexivity|].
  destruct (the_key_setting_is_read_part_by_part (C:=demo_cryptography) setting)
    as (_ & _ & _ & H).
  destruct (H (demo_env true (Some setting)) module_loaded
              [demo_key; demo_key] eq_refl eq_refl eq_refl eq_refl)
    as (st' & Hg & _).
  - repeat constructor.
  - exists st'; exact Hg.
Defined.
Lemma set_val_overwrites_or_does_nothing_witness :
  provider_resolves (demo_env true (Some demo_key)) module_loaded
  /\ nonempty "new" = true /\ is_text "new"
  /\ exists r st',
       set_val demo_garbage_row "new" (demo_env true (Some demo_key))
         module_loaded = (Ok r, st')
       /\ get_val r (demo_env true (Some demo_key)) st' = (Ok (Some "new"), st').
Proof.
  assert (Hp : provider_resolves (demo_env true (Some demo_key)) module_loaded).
  { right; exists demo_key, []; right; repeat split; reflexivity. }
  split; [exact Hp | split; [reflexivity | split; [reflexivity|]]].
  destruct (set_val_overwrites_or_does_nothing (C:=demo_cryptography)
              demo_garbage_row "new" (demo_env true (Some demo_key))
              module_loaded) as (_ & _ & H).
  destruct (H demo_tokens_are_text demo_tokens_expand
              demo_decrypt_inverts_encrypt Hp eq_refl eq_refl)
    as (r & st' & Hs & _ & Hg).
  exists r, st'; split; [exact Hs | exact (Hg _ st' eq_refl)].
Defined.
End MoreDemo.
